(** * youtubesummary: identifier resolution, output confinement and the
      two front-ends

    A shallow embedding of [src/youtubesummary/youtube_summary.py] and
    [mcp_wrapper.py].  Python [str] values are lists of characters; a
    character is a code point below 256 (an [ascii]), the range on which
    [urllib.parse]'s NFKC check of the network location never fires.
    The transcript service, the generation service, the file system and
    the JSON parser are collaborators outside the repository: they enter
    as the fields of a record [services], and every call to one of them
    that acts on the world is recorded in an event log. *)

From Stdlib Require Import List String Ascii Bool Arith NArith ZArith Lia.
Import ListNotations.

(** ** Python strings *)

Definition str := list ascii.

(** A literal. *)
Definition py (s : string) : str := list_ascii_of_string s.

Definition code (c : ascii) : N := N_of_ascii c.

Definition in_range (lo hi : N) (c : ascii) : bool :=
  (lo <=? code c)%N && (code c <=? hi)%N.

Definition ascii_eqb (a b : ascii) : bool := (code a =? code b)%N.

Fixpoint str_eqb (s t : str) : bool :=
  match s, t with
  | [], [] => true
  | a :: s', b :: t' => ascii_eqb a b && str_eqb s' t'
  | _, _ => false
  end.

(** [c in s] for a single character [c]. *)
Definition has_char (c : ascii) (s : str) : bool := existsb (ascii_eqb c) s.

(** [x in xs] for a list of strings. *)
Definition str_in (x : str) (xs : list str) : bool := existsb (str_eqb x) xs.

(** [len(s)] *)
Definition len (s : str) : nat := List.length s.

(** [not s]: a string is falsy exactly when it is empty. *)
Definition is_empty (s : str) : bool :=
  match s with [] => true | _ => false end.

(** [str.isspace] on one character of the modelled range. *)
Definition isspace (c : ascii) : bool :=
  in_range 9 13 c || in_range 28 32 c
  || (code c =? 133)%N || (code c =? 160)%N.

Fixpoint drop_while (p : ascii -> bool) (s : str) : str :=
  match s with
  | [] => []
  | c :: s' => if p c then drop_while p s' else s
  end.

Fixpoint take_while (p : ascii -> bool) (s : str) : str :=
  match s with
  | [] => []
  | c :: s' => if p c then c :: take_while p s' else []
  end.

Definition lstrip_by (p : ascii -> bool) (s : str) : str := drop_while p s.
Definition rstrip_by (p : ascii -> bool) (s : str) : str :=
  rev (drop_while p (rev s)).

(** [s.strip()] *)
Definition strip (s : str) : str := rstrip_by isspace (lstrip_by isspace s).

(** [s.startswith(p)] *)
Fixpoint startswith (p s : str) : bool :=
  match p, s with
  | [], _ => true
  | a :: p', b :: s' => ascii_eqb a b && startswith p' s'
  | _ :: _, [] => false
  end.

(** [s.endswith(p)] *)
Definition endswith (p s : str) : bool := startswith (rev p) (rev s).

(** [s.find(c)] for a single character: [None] stands for -1. *)
Fixpoint find_char (c : ascii) (s : str) : option nat :=
  match s with
  | [] => None
  | a :: s' => if ascii_eqb c a then Some 0
               else option_map S (find_char c s')
  end.

(** [s.replace(c, r)] for a single character [c]. *)
Definition replace_char (c : ascii) (r : str) (s : str) : str :=
  flat_map (fun a => if ascii_eqb c a then r else [a]) s.

(** [s.split(c)] for a single character separator. *)
Fixpoint split_on (c : ascii) (s : str) : list str :=
  match s with
  | [] => [[]]
  | a :: s' =>
      if ascii_eqb c a then [] :: split_on c s'
      else match split_on c s' with
           | [] => [[a]]
           | w :: ws => (a :: w) :: ws
           end
  end.

(** [sep.join(xs)] *)
Fixpoint join (sep : str) (xs : list str) : str :=
  match xs with
  | [] => []
  | [x] => x
  | x :: xs' => x ++ sep ++ join sep xs'
  end.

(** [s.partition(c)]: the part before the first [c], whether [c] was
    found, and the part after it. *)
Definition partition_char (c : ascii) (s : str) : str * bool * str :=
  match find_char c s with
  | Some i => (firstn i s, true, skipn (S i) s)
  | None => (s, false, [])
  end.

(** [s.rpartition(c)[2]]: what follows the last [c], or all of [s]. *)
Definition after_last (c : ascii) (s : str) : str :=
  rev (take_while (fun a => negb (ascii_eqb c a)) (rev s)).

(** ** [urllib.parse.urlparse(url).netloc]

    The network location as CPython 3.11's [urlsplit] computes it;
    [None] stands for the [ValueError] it raises. *)
Module Urllib.

Definition is_ascii_alpha (c : ascii) : bool :=
  in_range 65 90 c || in_range 97 122 c.

Definition is_digit (c : ascii) : bool := in_range 48 57 c.

(** [scheme_chars]: letters, digits and [+-.] *)
Definition is_scheme_char (c : ascii) : bool :=
  is_ascii_alpha c || is_digit c
  || has_char c (py "+-.").

(** [_WHATWG_C0_CONTROL_OR_SPACE] *)
Definition is_c0_or_space (c : ascii) : bool := in_range 0 32 c.

(** [_UNSAFE_URL_BYTES_TO_REMOVE]: tab, carriage return, newline *)
Definition is_unsafe_byte (c : ascii) : bool :=
  (code c =? 9)%N || (code c =? 13)%N || (code c =? 10)%N.

Definition is_hex (c : ascii) : bool :=
  is_digit c || in_range 65 70 c || in_range 97 102 c.

(** The scheme, when the text before the first colon is one, is cut
    off together with the colon. *)
Definition drop_scheme (url : str) : str :=
  match find_char ":" url with
  | Some i =>
      if (0 <? i) && is_ascii_alpha (hd "000"%char url)
         && forallb is_scheme_char (firstn i url)
      then skipn (S i) url
      else url
  | None => url
  end.

(** [_splitnetloc(url, 2)[0]]: from index 2 up to the earliest of
    [/], [?] and [#]. *)
Definition splitnetloc (url : str) : str :=
  take_while (fun c => negb (has_char c (py "/?#"))) (skipn 2 url).

(** [IPv4Address._parse_octet] succeeds. *)
Definition octet_ok (o : str) : bool :=
  negb (is_empty o) && forallb is_digit o && (len o <=? 3)
  && (str_eqb o (py "0") || negb (startswith (py "0") o))
  && (fold_left (fun acc c => 10 * acc + (code c - 48))%N o 0 <=? 255)%N.

(** [IPv4Address(s)] succeeds. *)
Definition is_ipv4 (s : str) : bool :=
  negb (has_char "/" s) && negb (is_empty s)
  && (List.length (split_on "." s) =? 4) && forallb octet_ok (split_on "." s).

(** [IPv6Address._parse_hextet] succeeds. *)
Definition hextet_ok (h : str) : bool :=
  forallb is_hex h && (len h <=? 4) && negb (is_empty h).

(** The indices [1 .. len(parts) - 2] that hold an empty part. *)
Definition inner_empty (parts : list str) : list nat :=
  filter (fun i => is_empty (nth i parts (py "x")))
         (seq 1 (List.length parts - 2)).

(** [IPv6Address._ip_int_from_string] succeeds on the parts left once
    an IPv4 suffix has been replaced by its two hextets. *)
Definition ipv6_parts_ok (parts : list str) : bool :=
  let n := List.length parts in
  let first_empty := is_empty (nth 0 parts []) in
  let last_empty := is_empty (nth (n - 1) parts []) in
  (n <=? 9)
  && match inner_empty parts with
     | [skip] =>
         let hi := if first_empty then skip - 1 else skip in
         let lo := if last_empty then n - skip - 1 - 1 else n - skip - 1 in
         negb (first_empty && negb (hi =? 0))
         && negb (last_empty && negb (lo =? 0))
         && (hi + lo <? 8)
         && forallb hextet_ok (firstn hi parts)
         && forallb hextet_ok (skipn (n - lo) parts)
     | [] =>
         (n =? 8) && negb first_empty && negb last_empty
         && forallb hextet_ok parts
     | _ => false
     end.

(** [IPv6Address(s)] succeeds. *)
Definition is_ipv6 (s : str) : bool :=
  negb (has_char "/" s)
  && match partition_char "%" s with
     | (addr, sep, scope) =>
         negb (sep && (is_empty scope || has_char "%" scope))
         && negb (is_empty addr)
         && let parts := split_on ":" addr in
            (3 <=? List.length parts)
            && let l := last parts [] in
               if has_char "." l
               then is_ipv4 l
                    && ipv6_parts_ok (removelast parts ++ [py "0"; py "0"])
               else ipv6_parts_ok parts
     end.

(** [re.match(r"\Av[a-fA-F0-9]+\..+\Z", hostname)] *)
Definition is_ipvfuture (h : str) : bool :=
  match h with
  | c :: rest =>
      ascii_eqb c "v"
      && let hexes := take_while is_hex rest in
         let tail := skipn (len hexes) rest in
         negb (is_empty hexes)
         && match tail with
            | d :: more =>
                ascii_eqb d "." && negb (is_empty more)
                && forallb (fun a => negb (code a =? 10)%N) more
            | [] => false
            end
  | [] => false
  end.

(** [_check_bracketed_host] returns without raising. *)
Definition check_bracketed_host (h : str) : bool :=
  if startswith (py "v") h then is_ipvfuture h
  else negb (is_ipv4 h) && is_ipv6 h.

(** [_check_bracketed_netloc] returns without raising. *)
Definition check_bracketed_netloc (netloc : str) : bool :=
  let hostname_and_port := after_last "@" netloc in
  match partition_char "[" hostname_and_port with
  | (before_bracket, true, bracketed) =>
      match partition_char "]" bracketed with
      | (hostname, _, port) =>
          is_empty before_bracket
          && (is_empty port || startswith (py ":") port)
          && check_bracketed_host hostname
      end
  | (_, false, _) =>
      match partition_char ":" hostname_and_port with
      | (hostname, _, _) => check_bracketed_host hostname
      end
  end.

Definition urlparse_netloc (url : str) : option str :=
  let url := lstrip_by is_c0_or_space url in
  let url := filter (fun c => negb (is_unsafe_byte c)) url in
  let url := drop_scheme url in
  if startswith (py "//") url then
    let netloc := splitnetloc url in
    let lb := has_char "[" netloc in
    let rb := has_char "]" netloc in
    if (lb && negb rb) || (rb && negb lb) then None
    else if lb && rb then
      if check_bracketed_netloc netloc then Some netloc else None
    else Some netloc
  else Some [].

End Urllib.

(** ** The regular expressions of [extract_video_id] *)
Module Re.

(** The class [[a-zA-Z0-9_-]] *)
Definition is_id_char (c : ascii) : bool :=
  in_range 97 122 c || in_range 65 90 c || in_range 48 57 c
  || ascii_eqb c "_" || ascii_eqb c "-".

(** [[a-zA-Z0-9_-]{n}] at the front of [s]: the [n] characters matched
    and what follows them. *)
Fixpoint take_id (n : nat) (s : str) : option (str * str) :=
  match n with
  | 0 => Some ([], s)
  | S n' =>
      match s with
      | c :: s' =>
          if is_id_char c then
            match take_id n' s' with
            | Some (m, rest) => Some (c :: m, rest)
            | None => None
            end
          else None
      | [] => None
      end
  end.

(** A pattern [(?:p1|p2|...)([a-zA-Z0-9_-]{11})]: literal alternatives
    followed by the capturing group. *)
Definition pattern := list str.

(** The pattern matched at the front of [s], alternatives tried in
    order: the text of group 1. *)
Fixpoint match_here (alts : pattern) (s : str) : option str :=
  match alts with
  | [] => None
  | p :: alts' =>
      if startswith p s then
        match take_id 11 (skipn (len p) s) with
        | Some (m, _) => Some m
        | None => match_here alts' s
        end
      else match_here alts' s
  end.

(** [re.search(pattern, s)]: the leftmost match; [group(1)] of it. *)
Fixpoint search (alts : pattern) (s : str) : option str :=
  match match_here alts s with
  | Some m => Some m
  | None =>
      match s with
      | [] => None
      | _ :: s' => search alts s'
      end
  end.

(** [re.match(r"^[a-zA-Z0-9_-]{11}$", s)] is a match: [$] holds at the
    end of the string and just before a newline that ends it. *)
Definition match_id (s : str) : bool :=
  match take_id 11 s with
  | Some (_, rest) => is_empty rest || str_eqb rest ["010"%char]
  | None => false
  end.

End Re.

(** ** [extract_video_id] *)

Definition valid_domains : list str :=
  [py "youtube.com"; py "youtu.be"; py "www.youtube.com"; py "m.youtube.com"].

Definition patterns : list Re.pattern :=
  [ [py "youtube.com/watch?v="; py "youtu.be/"; py "youtube.com/embed/"];
    [py "youtube.com/v/"] ].

(** The guard inside the [try]: the URL has a network location that is
    not allow-listed and contains a dot.  A [ValueError] of [urlparse] is
    swallowed and rejects nothing. *)
Definition foreign_domain (url : str) : bool :=
  match Urllib.urlparse_netloc url with
  | Some netloc =>
      negb (is_empty netloc) && negb (str_in netloc valid_domains)
      && has_char "." netloc
  | None => false
  end.

(** The loop over [patterns]. *)
Fixpoint first_pattern (ps : list Re.pattern) (url : str) : option str :=
  match ps with
  | [] => None
  | p :: ps' =>
      match Re.search p url with
      | Some video_id =>
          if Re.match_id video_id then Some video_id
          else first_pattern ps' url
      | None => first_pattern ps' url
      end
  end.

Definition extract_video_id (url : str) : option str :=
  if is_empty url then None
  else
    let url := strip url in
    if foreign_domain url then None
    else
      match first_pattern patterns url with
      | Some video_id => Some video_id
      | None => if Re.match_id url then Some url else None
      end.

(** ** [sanitize_filename] *)

(** [os.path.basename] of [posixpath]: what follows the last slash. *)
Definition basename (p : str) : str := after_last "/" p.

Definition dangerous_chars : list ascii :=
  ["<"; ">"; ":"; "034"; "|"; "?"; "*"; "000"]%char.

(** The loop [for char in dangerous_chars: filename = filename.replace(char, "_")] *)
Definition replace_dangerous (filename : str) : str :=
  fold_left (fun f c => replace_char c (py "_") f) dangerous_chars filename.

Definition sanitize_filename (filename : str) : str :=
  if is_empty filename then py "transcript.md"
  else
    let filename := basename filename in
    let filename := replace_dangerous filename in
    let filename :=
      if negb (endswith (py ".md") filename) then filename ++ py ".md"
      else filename in
    if 255 <? len filename then
      let name_part := firstn 250 (firstn (len filename - 3) filename) in
      name_part ++ py ".md"
    else filename.

(** ** Values that cross the RPC boundary

    What [json.loads] builds: a float keeps only what the program can
    observe of it, whether it is zero, next to its source text.
    [PJson indent v] is the string [json.dumps(v, indent=indent)], kept
    as the value it encodes; the program only ever hands it out. *)
#[local] Set Warnings "-register-all".
Inductive pyval : Type :=
| PNone
| PBool (b : bool)
| PInt (z : Z)
| PFloat (is_zero : bool) (text : str)
| PStr (s : str)
| PJson (indent : option nat) (v : pyval)
| PList (l : list pyval)
| PDict (d : list (str * pyval)).

(** [bool(v)] *)
Definition truthy (v : pyval) : bool :=
  match v with
  | PNone => false
  | PBool b => b
  | PInt z => negb (z =? 0)%Z
  | PFloat is_zero _ => negb is_zero
  | PStr s => negb (is_empty s)
  | PJson _ _ => true
  | PList l => match l with [] => false | _ => true end
  | PDict d => match d with [] => false | _ => true end
  end.

(** [type(v).__name__] *)
Definition type_name (v : pyval) : str :=
  match v with
  | PNone => py "NoneType"
  | PBool _ => py "bool"
  | PInt _ => py "int"
  | PFloat _ _ => py "float"
  | PStr _ => py "str"
  | PJson _ _ => py "str"
  | PList _ => py "list"
  | PDict _ => py "dict"
  end.

(** [v == s] for a string [s]: only a string equals a string. *)
Definition eq_str (v : pyval) (s : str) : bool :=
  match v with PStr t => str_eqb t s | _ => false end.

Fixpoint assoc (k : str) (d : list (str * pyval)) : option pyval :=
  match d with
  | [] => None
  | (k', v) :: d' => if str_eqb k k' then Some v else assoc k d'
  end.

(** [d[k] = v] on a dict kept in insertion order. *)
Fixpoint dict_set (k : str) (v : pyval) (d : list (str * pyval))
  : list (str * pyval) :=
  match d with
  | [] => [(k, v)]
  | (k', v') :: d' =>
      if str_eqb k k' then (k, v) :: d' else (k', v') :: dict_set k v d'
  end.

(** A result or the exception that escaped, with its [str(e)]. *)
Inductive res (A : Type) : Type :=
| Ok (a : A)
| Raise (msg : str).
Arguments Ok {A} a.
Arguments Raise {A} msg.

(** [v.get(k, default)]: an [AttributeError] unless [v] is a dict. *)
Definition py_get (v : pyval) (k : str) (default : pyval) : res pyval :=
  match v with
  | PDict d => Ok match assoc k d with Some x => x | None => default end
  | _ => Raise (py "'" ++ type_name v
                ++ py "' object has no attribute 'get'")
  end.

(** [extract_video_id] on any value: its first line turns away what is
    falsy or not a string. *)
Definition extract_video_id_dyn (url : pyval) : option str :=
  match url with
  | PStr s => extract_video_id s
  | _ => None
  end.

(** [sanitize_filename] on any value: a falsy one gives the default
    name, and [os.path.basename] raises [TypeError] on a truthy value
    that is not a string. *)
Definition sanitize_filename_dyn (filename : pyval) : res str :=
  match filename with
  | PStr s => Ok (sanitize_filename s)
  | _ =>
      if negb (truthy filename) then Ok (py "transcript.md")
      else Raise (py "expected str, bytes or os.PathLike object, not "
                  ++ type_name filename)
  end.

(** [not x] for an optional string: [None] and the empty string. *)
Definition falsy (x : option str) : bool :=
  match x with
  | Some s => is_empty s
  | None => true
  end.

(** ** Effects

    A resolved absolute path is the list of its components below the
    root.  Each call to a collaborator and each [print] leaves an
    event; [EvPrintJson v] is [print(json.dumps(v))]. *)
Definition path := list str.

Inductive event : Type :=
| EvTranscript (video_id : str)
| EvCompletion (model : pyval) (prompt : str) (max_tokens : nat)
| EvWrite (target : path) (content : str)
| EvPrint (line : str)
| EvPrintJson (response : pyval).

(** [str(p)] of an absolute [PosixPath] *)
Definition path_str (p : path) : str := py "/" ++ join (py "/") p.

(** [p.relative_to(d)] does not raise: the parts of [d] begin [p]. *)
Fixpoint is_within (d p : path) : bool :=
  match d, p with
  | [], _ => true
  | a :: d', b :: p' => str_eqb a b && is_within d' p'
  | _ :: _, [] => false
  end.

#[local] Set Warnings "-abstract-large-number".
Definition max_transcript_length : nat := 8000.

(** The slice of [generate_summary] *)
Definition truncate_transcript (transcript : str) : str :=
  if max_transcript_length <? len transcript
  then firstn max_transcript_length transcript ++ py "..."
  else transcript.

Definition nl : str := ["010"%char].

Definition prompt_head : str :=
  py "Please provide a summary of this YouTube video transcript. " ++ nl
  ++ py "        Focus on the main points, key insights, and actionable takeaways."
  ++ nl ++ py "        " ++ nl
  ++ py "        Transcript:" ++ nl
  ++ py "        ".

Definition prompt_tail : str :=
  nl ++ py "        " ++ nl
  ++ py "        Please format your response as a clear, well-structured summary.".

Definition document (video_url summary model_line transcript : str) : str :=
  py "# YouTube Video Summary" ++ nl ++ nl
  ++ py "**Video URL:** " ++ video_url ++ nl ++ nl
  ++ py "## Summary" ++ nl ++ nl
  ++ summary ++ nl ++ nl
  ++ py "*Generated using: " ++ model_line ++ py "*" ++ nl ++ nl
  ++ py "## Full Transcript" ++ nl ++ nl
  ++ transcript ++ nl.

(** ** The program over its collaborators *)

(** What [json.loads(s)] does: it returns the value, raises
    [json.JSONDecodeError], or raises another exception, given with its
    [str(e)] (a [RecursionError] on input nested too deep, a
    [ValueError] on an integer literal with too many digits). *)
Inductive parsed : Type :=
| Parsed (v : pyval)
| DecodeError
| OtherError (msg : str).

(** The collaborators, over the state [World] of everything outside the
    process. *)
Record services (World : Type) : Type := Services {
  (** [YouTubeTranscriptApi.get_transcript(video_id)]: the [text] of each
      segment in order, or [None] when the call raises. *)
  api_get_transcript : str -> World -> option (list str) * World;
  (** [completion(model, messages, max_tokens)] followed by
      [response.choices[0].message.content]: [None] when either raises,
      [Some None] for a null content. *)
  completion : pyval -> str -> nat -> World -> option (option str) * World;
  (** [Path(name).resolve()] and [Path.cwd().resolve()] *)
  path_resolve : str -> World -> res path;
  path_cwd : World -> res path;
  (** [open(p, "w", encoding="utf-8")] and [f.write(content)]: [false]
      when one of them raises. *)
  open_write : path -> str -> World -> bool * World;
  (** [input(prompt)] *)
  input : str -> World -> res str * World;
  (** [str(v)] of a value that is not a string. *)
  py_str : pyval -> str;
  (** [json.loads(s)] *)
  json_loads : str -> parsed
}.
Arguments api_get_transcript {World} _ _ _.
Arguments completion {World} _ _ _ _ _.
Arguments path_resolve {World} _ _ _.
Arguments path_cwd {World} _ _.
Arguments open_write {World} _ _ _ _.
Arguments input {World} _ _ _.
Arguments py_str {World} _ _.
Arguments json_loads {World} _ _.

Record state (World : Type) : Type :=
  { world : World; log : list event }.
Arguments world {World} _.
Arguments log {World} _.
Arguments Build_state {World} _ _.

Section Program.

Context {World : Type}.
Variable sv : services World.

Definition M (A : Type) : Type := state World -> res A * state World.

Definition ret {A} (a : A) : M A := fun st => (Ok a, st).

Definition bind {A B} (c : M A) (k : A -> M B) : M B :=
  fun st =>
    match c st with
    | (Ok a, st') => k a st'
    | (Raise e, st') => (Raise e, st')
    end.

Definition lift {A} (r : res A) : M A := fun st => (r, st).

Definition emit (e : event) : M unit :=
  fun st => (Ok tt, {| world := world st; log := log st ++ [e] |}).

(** [try: c except Exception as e: h(str(e))] *)
Definition catch {A} (c : M A) (h : str -> M A) : M A :=
  fun st =>
    match c st with
    | (Ok a, st') => (Ok a, st')
    | (Raise e, st') => h e st'
    end.

Notation "x <- c ;; k" := (bind c (fun x => k))
  (at level 61, c at next level, right associativity).
Notation "c ;;; k" := (bind c (fun _ => k))
  (at level 61, right associativity).

Definition print (line : str) : M unit := emit (EvPrint line).

(** A call to a collaborator: the event, then its answer. *)
Definition call {A} (e : event) (f : World -> A * World) : M A :=
  fun st =>
    let (a, w) := f (world st) in
    (Ok a, {| world := w; log := log st ++ [e] |}).

Definition ask {A} (f : World -> res A) : M A :=
  fun st => (f (world st), st).

(** *** youtube_summary.py *)

Definition get_transcript (video_id : str) : M (option str) :=
  r <- call (EvTranscript video_id) (api_get_transcript sv video_id) ;;
  match r with
  | Some transcript_list => ret (Some (join (py " ") transcript_list))
  | None =>
      print (py "Error: Unable to download transcript. Please check the video ID and try again.") ;;;
      ret None
  end.

Definition generate_summary (transcript : str) (model : pyval)
  : M (option str) :=
  let transcript := truncate_transcript transcript in
  let prompt := prompt_head ++ transcript ++ prompt_tail in
  r <- call (EvCompletion model prompt 1000) (completion sv model prompt 1000) ;;
  match r with
  | Some content => ret content
  | None =>
      print (py "Error: Unable to generate summary. Please check your API configuration and try again.") ;;;
      ret None
  end.

(** [{v}] inside an f-string *)
Definition fmt (v : pyval) : str :=
  match v with PStr s => s | _ => py_str sv v end.

(** [{model_name or 'AI model'}] inside the f-string *)
Definition model_line (model_name : pyval) : str :=
  if truthy model_name then fmt model_name else py "AI model".

Definition save_to_markdown (transcript summary : str) (output_file : pyval)
    (video_url : pyval) (model_name : pyval) : M bool :=
  safe_filename <- lift (sanitize_filename_dyn output_file) ;;
  safe_path <- ask (path_resolve sv safe_filename) ;;
  current_dir <- ask (path_cwd sv) ;;
  if negb (is_within current_dir safe_path) then
    print (py "Error: Output file must be in current directory") ;;;
    ret false
  else
    let content :=
      document (fmt video_url) summary (model_line model_name)
               transcript in
    ok <- call (EvWrite safe_path content) (open_write sv safe_path content) ;;
    if ok then
      print (py "Summary and transcript saved to: " ++ path_str safe_path) ;;;
      ret true
    else
      print (py "Error: Unable to save file. Please check permissions and try again.") ;;;
      ret false.

(** The parsed command line: [url] is [None] when the positional
    argument is left out. *)
Record cli_args : Type :=
  { arg_url : option str; arg_output : str; arg_model : str }.

(** [main] of the command-line tool: the exit status. *)
Definition cli_main (args : cli_args) : M nat :=
  url <- (if falsy (arg_url args)
          then l <- (fun st =>
                       let (r, w) := input sv (py "Enter YouTube video URL: ")
                                           (world st) in
                       (r, {| world := w; log := log st |})) ;;
               ret (strip l)
          else ret match arg_url args with Some u => u | None => [] end) ;;
  if is_empty url then
    print (py "Error: No YouTube URL provided") ;;; ret 1
  else
    let video_id := extract_video_id url in
    match video_id with
    | None => print (py "Error: Invalid YouTube URL or video ID") ;;; ret 1
    | Some video_id =>
      if is_empty video_id then
        print (py "Error: Invalid YouTube URL or video ID") ;;; ret 1
      else
        print (py "Video ID: " ++ video_id) ;;;
        print (py "Downloading transcript...") ;;;
        transcript <- get_transcript video_id ;;
        if falsy transcript then
          print (py "Failed to download transcript") ;;; ret 1
        else
          let transcript :=
            match transcript with Some t => t | None => [] end in
          print (py "Transcript downloaded successfully") ;;;
          print (py "Generating summary using " ++ arg_model args
                 ++ py "...") ;;;
          summary <- generate_summary transcript (PStr (arg_model args)) ;;
          if falsy summary then
            print (py "Failed to generate summary") ;;; ret 1
          else
            let summary :=
              match summary with Some s => s | None => [] end in
            print (py "Summary generated successfully") ;;;
            saved <- save_to_markdown transcript summary
                       (PStr (arg_output args)) (PStr url)
                       (PStr (arg_model args)) ;;
            if negb saved then ret 1 else ret 0
    end.

(** *** mcp_wrapper.py *)

Definition kv (k : string) (v : pyval) : str * pyval := (py k, v).

Definition default_model : pyval := PStr (py "claude-sonnet-4-20250514").

(** [self.tools] *)
Definition tools : list (str * pyval) :=
  [ kv "youtube_summary" (PDict
      [ kv "description"
           (PStr (py "Download YouTube video transcript and generate AI summary"));
        kv "parameters" (PDict
          [ kv "type" (PStr (py "object"));
            kv "properties" (PDict
              [ kv "url" (PDict
                  [ kv "type" (PStr (py "string"));
                    kv "description" (PStr (py "YouTube video URL or video ID")) ]);
                kv "model" (PDict
                  [ kv "type" (PStr (py "string"));
                    kv "description" (PStr (py "LLM model to use for summary"));
                    kv "default" default_model ]);
                kv "output_file" (PDict
                  [ kv "type" (PStr (py "string"));
                    kv "description" (PStr (py "Output markdown file path"));
                    kv "default" (PStr (py "transcript.md")) ]);
                kv "save_to_file" (PDict
                  [ kv "type" (PStr (py "boolean"));
                    kv "description" (PStr (py "Whether to save results to file"));
                    kv "default" (PBool false) ]) ]);
            kv "required" (PList [PStr (py "url")]) ]) ]) ].

Definition item (d : pyval) (k : string) : pyval :=
  match d with
  | PDict l => match assoc (py k) l with Some v => v | None => PNone end
  | _ => PNone
  end.

Definition list_tools : pyval :=
  PList (map (fun nt : str * pyval =>
                PDict [ kv "name" (PStr (fst nt));
                        kv "description" (item (snd nt) "description");
                        kv "inputSchema" (item (snd nt) "parameters") ])
             tools).

Definition error_result (msg : str) : pyval :=
  PDict [ kv "error" (PStr msg); kv "isError" (PBool true) ].

Definition _youtube_summary (args : pyval) : M pyval :=
  url <- lift (py_get args (py "url") PNone) ;;
  model <- lift (py_get args (py "model") default_model) ;;
  output_file <- lift (py_get args (py "output_file")
                              (PStr (py "transcript.md"))) ;;
  save_to_file <- lift (py_get args (py "save_to_file") (PBool false)) ;;
  if negb (truthy url) then ret (error_result (py "URL is required"))
  else
    let video_id := extract_video_id_dyn url in
    if falsy video_id then
      ret (error_result (py "Invalid YouTube URL or video ID"))
    else
      let video_id := match video_id with Some v => v | None => [] end in
      transcript <- get_transcript video_id ;;
      if falsy transcript then
        ret (error_result (py "Failed to download transcript"))
      else
        let transcript :=
          match transcript with Some t => t | None => [] end in
        summary <- generate_summary transcript model ;;
        if falsy summary then
          ret (error_result (py "Failed to generate summary"))
        else
          let summary := match summary with Some s => s | None => [] end in
          let result :=
            [ kv "video_id" (PStr video_id);
              kv "video_url" url;
              kv "transcript" (PStr transcript);
              kv "summary" (PStr summary);
              kv "model_used" model ] in
          result <-
            (if truthy save_to_file then
               success <- save_to_markdown transcript summary output_file
                            url model ;;
               let result :=
                 dict_set (py "saved_to_file") (PBool success) result in
               ret (if success
                    then dict_set (py "output_file") output_file result
                    else result)
             else ret result) ;;
          ret (PDict
                 [ kv "content"
                      (PList [ PDict [ kv "type" (PStr (py "text"));
                                       kv "text" (PJson (Some 2) (PDict result)) ] ]) ]).

(** [name in self.tools]: a list or a dict cannot be hashed. *)
Definition in_tools (name : pyval) : res bool :=
  match name with
  | PList _ | PDict _ =>
      Raise (py "unhashable type: '" ++ type_name name ++ py "'")
  | _ => Ok (existsb (fun nt => eq_str name (fst nt)) tools)
  end.

Definition call_tool (name arguments : pyval) : M pyval :=
  known <- lift (in_tools name) ;;
  if negb known then
    ret (error_result (py "Unknown tool: " ++ fmt name))
  else
    catch
      (if eq_str name (py "youtube_summary") then _youtube_summary arguments
       else ret (error_result (py "Tool " ++ fmt name
                               ++ py " not implemented")))
      (fun e => ret (error_result (py "Error calling tool " ++ fmt name
                                   ++ py ": " ++ e))).

Definition rpc_error (id : pyval) (code : Z) (message : str) : pyval :=
  PDict [ kv "jsonrpc" (PStr (py "2.0"));
          kv "id" id;
          kv "error" (PDict [ kv "code" (PInt code);
                              kv "message" (PStr message) ]) ].

Definition rpc_result (id result : pyval) : pyval :=
  PDict [ kv "jsonrpc" (PStr (py "2.0"));
          kv "id" id;
          kv "result" result ].

(** The body of the [try] once the line is parsed. *)
Definition handle_request (request : pyval) : M unit :=
  method <- lift (py_get request (py "method") PNone) ;;
  response <-
    (if eq_str method (py "tools/list") then
       id <- lift (py_get request (py "id") PNone) ;;
       ret (rpc_result id (PDict [ kv "tools" list_tools ]))
     else if eq_str method (py "tools/call") then
       params <- lift (py_get request (py "params") (PDict [])) ;;
       tool_name <- lift (py_get params (py "name") PNone) ;;
       arguments <- lift (py_get params (py "arguments") (PDict [])) ;;
       result <- call_tool tool_name arguments ;;
       id <- lift (py_get request (py "id") PNone) ;;
       ret (rpc_result id result)
     else
       id <- lift (py_get request (py "id") PNone) ;;
       ret (rpc_error id (-32601) (py "Method not found"))) ;;
  emit (EvPrintJson response).

(** [except Exception as e]: the id is
    [request.get("id") if 'request' in locals() else None], where
    [request] is the local variable of [main] as the turns so far left
    it, [None] while no line has parsed.  Asking a request that is no
    dict for its id raises once more. *)
Definition internal_error (request : option pyval) (e : str) : M unit :=
  id <- match request with
        | Some r => lift (py_get r (py "id") PNone)
        | None => ret PNone
        end ;;
  emit (EvPrintJson (rpc_error id (-32603) (py "Internal error: " ++ e))).

(** One turn of the loop, from the binding of [request] the earlier
    turns left to the one this turn leaves.  The whole [try], parse
    included, is under both handlers: [json.loads] raising
    [JSONDecodeError] is answered by the first, anything else it raises
    by the second, with the binding of the earlier turns; once the line
    has parsed, [request] is the value of this line. *)
Definition mcp_main_line (request : option pyval) (line : str)
  : M (option pyval) :=
  match json_loads sv (strip line) with
  | DecodeError =>
      emit (EvPrintJson (rpc_error PNone (-32700) (py "Parse error"))) ;;;
      ret request
  | OtherError e =>
      internal_error request e ;;;
      ret request
  | Parsed r =>
      catch (handle_request r) (internal_error (Some r)) ;;;
      ret (Some r)
  end.

(** [for line in sys.stdin: ...]: an exception that escapes a turn ends
    the server. *)
Fixpoint mcp_main_loop (request : option pyval) (lines : list str) : M unit :=
  match lines with
  | [] => ret tt
  | line :: rest =>
      request <- mcp_main_line request line ;;
      mcp_main_loop request rest
  end.

(** [main()]: no [request] is bound when the loop starts. *)
Definition mcp_main (lines : list str) : M unit := mcp_main_loop None lines.

End Program.
Arguments M World A : clear implicits.

(** ** Vocabulary of the statements *)

(** What the replacement loop does to one character. *)
Definition sanitize_char (a : ascii) : ascii :=
  fold_left (fun x c => if ascii_eqb c x then "_"%char else x)
            dangerous_chars a.

(** A character that sanitization leaves alone and that separates no
    directories. *)
Definition safe_char (a : ascii) : bool :=
  negb (has_char a dangerous_chars) && negb (ascii_eqb "/" a).

(** What every sanitized name satisfies. *)
Record sanitized (r : str) : Prop :=
  { san_safe : Forall (fun a => safe_char a = true) r;
    san_suffix : endswith (py ".md") r = true;
    san_short : len r <= 255 }.

(** [st] with further events at the end of its log. *)
Definition add {World : Type} (st : state World) (evs : list event)
  : state World :=
  {| world := world st; log := log st ++ evs |}.

(** The stages that reach a collaborator. *)
Inductive stage : Type := Fetch | Generate | Save.

Definition stage_of (e : event) : list stage :=
  match e with
  | EvTranscript _ => [Fetch]
  | EvCompletion _ _ _ => [Generate]
  | EvWrite _ _ => [Save]
  | EvPrint _ | EvPrintJson _ => []
  end.

(** The stages a stretch of the log went through, in order. *)
Definition stages (evs : list event) : list stage := flat_map stage_of evs.

(** The prompts handed to the generation service, in order. *)
Definition sent_prompts (evs : list event) : list str :=
  flat_map (fun e => match e with
                     | EvCompletion _ prompt _ => [prompt]
                     | _ => []
                     end) evs.

(** The files opened for writing, in order. *)
Definition written (evs : list event) : list path :=
  flat_map (fun e => match e with
                     | EvWrite target _ => [target]
                     | _ => []
                     end) evs.

Definition msg_unable_transcript : str :=
  py "Error: Unable to download transcript. Please check the video ID and try again.".
Definition msg_unable_summary : str :=
  py "Error: Unable to generate summary. Please check your API configuration and try again.".

(** [d.get(k, default)] on a dict *)
Definition dict_get (d : list (str * pyval)) (k : string) (default : pyval)
  : pyval :=
  match assoc (py k) d with Some x => x | None => default end.

(** The result dict before the save outcome is folded in. *)
Definition base_result (video_id : str) (url : pyval)
    (transcript summary : str) (model : pyval) : list (str * pyval) :=
  [ kv "video_id" (PStr video_id);
    kv "video_url" url;
    kv "transcript" (PStr transcript);
    kv "summary" (PStr summary);
    kv "model_used" model ].

(** The successful tool result: one text block holding the JSON of
    [result]. *)
Definition tool_content (result : list (str * pyval)) : pyval :=
  PDict [ kv "content"
             (PList [ PDict [ kv "type" (PStr (py "text"));
                              kv "text" (PJson (Some 2) (PDict result)) ] ]) ].

(** A value that can be looked up in a dict. *)
Definition hashable (name : pyval) : bool :=
  match name with PList _ | PDict _ => false | _ => true end.

(** [st'] continues the log of [st] through the stages [ss]. *)
Definition grows {World : Type} (st st' : state World) (ss : list stage)
  : Prop :=
  exists new, log st' = log st ++ new /\ stages new = ss.

(** The stages in their order, cut anywhere. *)
Definition in_sequence (ss : list stage) : Prop :=
  exists k, ss = firstn k [Fetch; Generate; Save].

Section Outcomes.

Context {World : Type}.
Variable sv : services World.

(** The outcomes of [save_to_markdown], one per path through it. *)
Inductive save_outcome (output_file video_url model_name : pyval)
    (transcript summary : str) (st : state World)
  : res bool * state World -> Prop :=
| SaveTypeError e :
    sanitize_filename_dyn output_file = Raise e ->
    save_outcome output_file video_url model_name transcript summary st
      (Raise e, st)
| SaveResolveError name e :
    sanitize_filename_dyn output_file = Ok name ->
    path_resolve sv name (world st) = Raise e ->
    save_outcome output_file video_url model_name transcript summary st
      (Raise e, st)
| SaveCwdError name safe_path e :
    sanitize_filename_dyn output_file = Ok name ->
    path_resolve sv name (world st) = Ok safe_path ->
    path_cwd sv (world st) = Raise e ->
    save_outcome output_file video_url model_name transcript summary st
      (Raise e, st)
| SaveOutside name safe_path current_dir :
    sanitize_filename_dyn output_file = Ok name ->
    path_resolve sv name (world st) = Ok safe_path ->
    path_cwd sv (world st) = Ok current_dir ->
    is_within current_dir safe_path = false ->
    save_outcome output_file video_url model_name transcript summary st
      (Ok false,
       add st [EvPrint (py "Error: Output file must be in current directory")])
| SaveWritten name safe_path current_dir w :
    sanitize_filename_dyn output_file = Ok name ->
    path_resolve sv name (world st) = Ok safe_path ->
    path_cwd sv (world st) = Ok current_dir ->
    is_within current_dir safe_path = true ->
    let content := document (fmt sv video_url) summary
                            (model_line sv model_name) transcript in
    open_write sv safe_path content (world st) = (true, w) ->
    save_outcome output_file video_url model_name transcript summary st
      (Ok true,
       {| world := w;
          log := log st
                 ++ [EvWrite safe_path content;
                     EvPrint (py "Summary and transcript saved to: "
                              ++ path_str safe_path)] |})
| SaveWriteFailed name safe_path current_dir w :
    sanitize_filename_dyn output_file = Ok name ->
    path_resolve sv name (world st) = Ok safe_path ->
    path_cwd sv (world st) = Ok current_dir ->
    is_within current_dir safe_path = true ->
    let content := document (fmt sv video_url) summary
                            (model_line sv model_name) transcript in
    open_write sv safe_path content (world st) = (false, w) ->
    save_outcome output_file video_url model_name transcript summary st
      (Ok false,
       {| world := w;
          log := log st
                 ++ [EvWrite safe_path content;
                     EvPrint (py "Error: Unable to save file. Please check permissions and try again.")] |}).

End Outcomes.

(** ** A scripted world

    Collaborators that answer from a script, for running the program on
    concrete inputs: the working directory is [/home/user], [links] are
    the symbolic links in it, and the JSON parser knows three lines, the
    empty object, an object with an id and a line of brackets nested too
    deep. *)
Record script : Type :=
  { segments : option (list str);
    answer : option (option str);
    links : list (str * path);
    writable : bool;
    typed : str }.

Definition home : path := [py "home"; py "user"].

Fixpoint link_target (name : str) (l : list (str * path)) : option path :=
  match l with
  | [] => None
  | (n, p) :: l' => if str_eqb name n then Some p else link_target name l'
  end.

(** A line of a thousand opening brackets, on which [json.loads] raises
    a [RecursionError] with this message. *)
Definition deep_line : str := repeat "["%char 1000.

Definition recursion_message : str :=
  py "maximum recursion depth exceeded while decoding a JSON array from a unicode string".

(** The line [{"id": 7}] *)
Definition id_line : str :=
  py "{" ++ ["034"%char] ++ py "id" ++ ["034"%char] ++ py ": 7}".

Definition scripted : services script :=
  {| api_get_transcript := fun _ w => (segments w, w);
     completion := fun _ _ _ w => (answer w, w);
     path_resolve := fun name w =>
       Ok match link_target name (links w) with
          | Some p => p
          | None => home ++ [name]
          end;
     path_cwd := fun _ => Ok home;
     open_write := fun _ _ w => (writable w, w);
     input := fun _ w => (Ok (typed w), w);
     py_str := fun v => py "<" ++ type_name v ++ py ">";
     json_loads := fun s =>
       if str_eqb s (py "{}") then Parsed (PDict [])
       else if str_eqb s id_line then Parsed (PDict [kv "id" (PInt 7)])
       else if str_eqb s deep_line then OtherError recursion_message
       else DecodeError |}.

(** The scripted collaborators in a working directory that has been
    removed: [os.getcwd()] raises a [FileNotFoundError] under both
    resolutions. *)
Definition no_cwd_message : str := py "[Errno 2] No such file or directory".

Definition adrift : services script :=
  {| api_get_transcript := api_get_transcript scripted;
     completion := completion scripted;
     path_resolve := fun _ _ => Raise no_cwd_message;
     path_cwd := fun _ => Raise no_cwd_message;
     open_write := open_write scripted;
     input := input scripted;
     py_str := py_str scripted;
     json_loads := json_loads scripted |}.

(** Everything answers. *)
Definition fair : script :=
  {| segments := Some [py "never gonna"; py "give you up"];
     answer := Some (Some (py "A promise."));
     links := [];
     writable := true;
     typed := [] |}.

Definition start (w : script) : state script := {| world := w; log := [] |}.

(** A transcript one character over the limit. *)
Definition long_transcript : str := repeat "a"%char 8001.

(** The file system refuses the write. *)
Definition read_only : script :=
  {| segments := segments fair; answer := answer fair; links := [];
     writable := false; typed := [] |}.

Definition save_request (output_file : string) : list (str * pyval) :=
  [ kv "url" (PStr (py "dQw4w9WgXcQ"));
    kv "output_file" (PStr (py output_file));
    kv "save_to_file" (PBool true) ].

(** [passwd.md] in the working directory is a symbolic link that leaves
    it. *)
Definition escaping : script :=
  {| segments := segments fair; answer := answer fair;
     links := [(py "passwd.md", [py "etc"; py "passwd"])];
     writable := true; typed := [] |}.

(** [passwd.md] in the working directory is a symbolic link to
    [sub/other.md] in the same directory. *)
Definition linked_inside : script :=
  {| segments := segments fair; answer := answer fair;
     links := [(py "passwd.md", home ++ [py "sub"; py "other.md"])];
     writable := true; typed := [] |}.

(** A request whose [output_file] is a number. *)
Definition numbered_request : list (str * pyval) :=
  [ kv "url" (PStr (py "dQw4w9WgXcQ"));
    kv "output_file" (PInt 5);
    kv "save_to_file" (PBool true) ].

(** The service answers with no segment at all. *)
Definition silent : script :=
  {| segments := Some []; answer := answer fair; links := [];
     writable := true; typed := [] |}.

(** The log of the scripted run after the fetch and after the
    generation. *)
Definition fetched : list event := [EvTranscript (py "dQw4w9WgXcQ")].

Definition generated : list event :=
  fetched
  ++ [EvCompletion default_model
        (prompt_head ++ py "never gonna give you up" ++ prompt_tail) 1000].

Definition saved_notes : list event :=
  generated
  ++ [EvWrite (home ++ [py "notes.md"])
        (document (py "dQw4w9WgXcQ") (py "A promise.")
                  (py "claude-sonnet-4-20250514")
                  (py "never gonna give you up"));
      EvPrint (py "Summary and transcript saved to: /home/user/notes.md")].

(** * Properties *)

(** ** Characters and strings *)

Lemma ascii_eqb_eq (a b : ascii) : ascii_eqb a b = true <-> a = b.
Proof.
  unfold ascii_eqb, code. rewrite N.eqb_eq. split; [|congruence].
  intros H. rewrite <- (ascii_N_embedding a), <- (ascii_N_embedding b).
  now rewrite H.
Qed.

Lemma ascii_eqb_refl (a : ascii) : ascii_eqb a a = true.
Proof. now apply ascii_eqb_eq. Qed.

Lemma str_eqb_eq (s t : str) : str_eqb s t = true <-> s = t.
Proof.
  revert t. induction s as [|a s IH]; intros [|b t]; simpl;
    try (split; [discriminate || reflexivity | discriminate || reflexivity]).
  rewrite andb_true_iff, ascii_eqb_eq, IH. split.
  - intros [-> ->]. reflexivity.
  - intros H. injection H as -> ->. split; reflexivity.
Qed.

Lemma has_char_In (c : ascii) (s : str) : has_char c s = true <-> In c s.
Proof.
  unfold has_char. rewrite existsb_exists. split.
  - intros [x [Hx E]]. apply ascii_eqb_eq in E. now subst.
  - intros H. exists c. split; [assumption | apply ascii_eqb_refl].
Qed.

Lemma str_in_In (x : str) (xs : list str) : str_in x xs = true <-> In x xs.
Proof.
  unfold str_in. rewrite existsb_exists. split.
  - intros [y [Hy E]]. apply str_eqb_eq in E. now subst.
  - intros H. exists x. split; [assumption | now apply str_eqb_eq].
Qed.

Lemma is_empty_nil (s : str) : is_empty s = true <-> s = [].
Proof. destruct s; simpl; split; congruence. Qed.

Lemma drop_while_head (p : ascii -> bool) (c : ascii) (s : str) :
  p c = false -> drop_while p (c :: s) = c :: s.
Proof. intros H. simpl. now rewrite H. Qed.

Lemma drop_while_none (p : ascii -> bool) (s : str) :
  Forall (fun c => p c = false) s -> drop_while p s = s.
Proof. intros [|c s' H _]; [reflexivity | now apply drop_while_head]. Qed.

Lemma strip_by_none (p : ascii -> bool) (s : str) :
  Forall (fun c => p c = false) s ->
  rstrip_by p (lstrip_by p s) = s.
Proof.
  intros H. unfold rstrip_by, lstrip_by.
  rewrite (drop_while_none p s H), drop_while_none, rev_involutive; trivial.
  now apply Forall_rev.
Qed.

Lemma startswith_Forall (P : ascii -> Prop) (p s : str) :
  startswith p s = true -> Forall P s -> Forall P p.
Proof.
  revert s. induction p as [|a p IH]; intros s H F; [constructor|].
  destruct s as [|b s]; [discriminate|]. simpl in H.
  apply andb_true_iff in H as [E H]. apply ascii_eqb_eq in E. subst b.
  inversion F; subst. constructor; eauto.
Qed.

Lemma find_char_None (c : ascii) (s : str) :
  ~ In c s -> find_char c s = None.
Proof.
  induction s as [|a s IH]; intros H; simpl; [reflexivity|].
  destruct (ascii_eqb c a) eqn:E.
  - apply ascii_eqb_eq in E. subst. exfalso. apply H. now left.
  - rewrite IH; [reflexivity|]. intros Hin. apply H. now right.
Qed.

(** ** Identifier resolution *)

Lemma take_id_all (s : str) :
  Forall (fun c => Re.is_id_char c = true) s ->
  Re.take_id (len s) s = Some (s, []).
Proof.
  unfold len. induction 1 as [|c s Hc _ IH]; simpl; [reflexivity|].
  now rewrite Hc, IH.
Qed.

Lemma match_here_foreign (alts : Re.pattern) (s : str) :
  Forall (fun p => exists c, In c p /\ Re.is_id_char c = false) alts ->
  Forall (fun c => Re.is_id_char c = true) s ->
  Re.match_here alts s = None.
Proof.
  intros Ha Hs. induction Ha as [|p alts [c [Hin Hc]] _ IH]; simpl; trivial.
  destruct (startswith p s) eqn:E; [|exact IH].
  apply (startswith_Forall (fun c => Re.is_id_char c = true)) in E; trivial.
  rewrite Forall_forall in E. specialize (E c Hin). congruence.
Qed.

Lemma search_foreign (alts : Re.pattern) (s : str) :
  Forall (fun p => exists c, In c p /\ Re.is_id_char c = false) alts ->
  Forall (fun c => Re.is_id_char c = true) s ->
  Re.search alts s = None.
Proof.
  intros Ha. induction 1 as [|c s Hc Hs IH].
  - simpl. now rewrite match_here_foreign.
  - change (Re.search alts (c :: s)) with
      (match Re.match_here alts (c :: s) with
       | Some m => Some m
       | None => Re.search alts s
       end).
    rewrite match_here_foreign; auto.
Qed.

Lemma patterns_need_a_dot :
  Forall (Forall (fun p => exists c, In c p /\ Re.is_id_char c = false))
         patterns.
Proof.
  repeat constructor; exists "."%char; (split; [simpl; tauto | reflexivity]).
Qed.

Lemma first_pattern_bare (s : str) :
  Forall (fun c => Re.is_id_char c = true) s ->
  first_pattern patterns s = None.
Proof.
  intros Hs. pose proof patterns_need_a_dot as Hp.
  induction Hp as [|p ps Hp _ IH]; simpl; [reflexivity|].
  now rewrite search_foreign.
Qed.

(** An identifier holds none of the characters URL parsing looks at. *)
Lemma id_char_plain (c : ascii) :
  Re.is_id_char c = true ->
  isspace c = false /\ Urllib.is_c0_or_space c = false
  /\ Urllib.is_unsafe_byte c = false
  /\ c <> ":"%char /\ c <> "/"%char.
Proof.
  destruct c as [[] [] [] [] [] [] [] []]; vm_compute; intros H;
    try discriminate H; repeat split; discriminate.
Qed.

Lemma urlparse_netloc_bare (s : str) :
  Forall (fun c => Re.is_id_char c = true) s ->
  Urllib.urlparse_netloc s = Some [].
Proof.
  intros Hs. unfold Urllib.urlparse_netloc.
  assert (H0 : lstrip_by Urllib.is_c0_or_space s = s).
  { apply drop_while_none. eapply Forall_impl; [|exact Hs].
    intros c Hc. now apply id_char_plain in Hc. }
  rewrite H0.
  assert (H1 : filter (fun c => negb (Urllib.is_unsafe_byte c)) s = s).
  { clear H0. induction Hs as [|c s Hc _ IH]; simpl; [reflexivity|].
    apply id_char_plain in Hc as (_ & _ & -> & _). simpl. now rewrite IH. }
  rewrite H1.
  assert (H2 : Urllib.drop_scheme s = s).
  { unfold Urllib.drop_scheme. rewrite find_char_None; [reflexivity|].
    intros Hin. rewrite Forall_forall in Hs.
    apply Hs, id_char_plain in Hin. tauto. }
  rewrite H2.
  destruct s as [|c s]; [reflexivity|].
  inversion Hs as [|? ? Hc _]; subst.
  apply id_char_plain in Hc as (_ & _ & _ & _ & Hc).
  simpl. destruct (ascii_eqb "/" c) eqn:E; [|reflexivity].
  apply ascii_eqb_eq in E. congruence.
Qed.

(** C8.  A string of exactly 11 characters, all of them letters, digits,
    underscores or hyphens, is its own identifier: [extract_video_id]
    returns it unchanged. *)
Theorem extract_video_id_bare_identifier (s : str) :
  len s = 11 ->
  Forall (fun c => Re.is_id_char c = true) s ->
  extract_video_id s = Some s.
Proof.
  intros L Hs. unfold extract_video_id.
  destruct s as [|c0 s0] eqn:Es; [discriminate L|]. rewrite <- Es in *.
  replace (is_empty s) with false by (subst s; reflexivity).
  assert (St : strip s = s).
  { apply strip_by_none. eapply Forall_impl; [|exact Hs].
    intros c Hc. now apply id_char_plain in Hc. }
  rewrite St. unfold foreign_domain.
  rewrite (urlparse_netloc_bare s Hs). cbn [is_empty negb andb].
  rewrite (first_pattern_bare s Hs).
  unfold Re.match_id. rewrite <- L, (take_id_all s Hs). reflexivity.
Qed.

Lemma extract_video_id_bare_identifier_witness :
  extract_video_id (py "dQw4w9WgXcQ") = Some (py "dQw4w9WgXcQ").
Proof.
  apply extract_video_id_bare_identifier.
  - reflexivity.
  - repeat constructor.
Defined.

(** C1, as the code has it.  When the trimmed input parses as a URL whose
    network location is not empty, is none of the allow-listed domains
    and contains a dot, [extract_video_id] returns [None], whatever its
    path or query holds. *)
Theorem extract_video_id_rejects_dotted_foreign_host (url netloc : str) :
  Urllib.urlparse_netloc (strip url) = Some netloc ->
  netloc <> [] ->
  ~ In netloc valid_domains ->
  In "."%char netloc ->
  extract_video_id url = None.
Proof.
  intros P Hn Hv Hd. unfold extract_video_id.
  destruct (is_empty url); [reflexivity|].
  unfold foreign_domain. rewrite P.
  replace (is_empty netloc) with false
    by (destruct netloc; [contradiction | reflexivity]).
  replace (str_in netloc valid_domains) with false
    by (destruct (str_in netloc valid_domains) eqn:E;
        [apply str_in_In in E; contradiction | reflexivity]).
  apply has_char_In in Hd. rewrite Hd. reflexivity.
Qed.

Lemma extract_video_id_rejects_dotted_foreign_host_witness :
  extract_video_id (py "https://evil.com/watch?v=AAAAAAAAAAA") = None.
Proof.
  apply (extract_video_id_rejects_dotted_foreign_host
           (py "https://evil.com/watch?v=AAAAAAAAAAA") (py "evil.com")).
  - reflexivity.
  - discriminate.
  - intros H. simpl in H. repeat (destruct H as [H | H]; [discriminate H|]).
    exact H.
  - simpl. tauto.
Defined.

Example extract_watch_url :
  extract_video_id (py "https://www.youtube.com/watch?v=dQw4w9WgXcQ&t=42s")
  = Some (py "dQw4w9WgXcQ").
Proof. reflexivity. Qed.

Example extract_short_link :
  extract_video_id (py "  https://youtu.be/dQw4w9WgXcQ ")
  = Some (py "dQw4w9WgXcQ").
Proof. reflexivity. Qed.

Example extract_blank : extract_video_id (py "   ") = None.
Proof. reflexivity. Qed.

Example extract_bracketed_host :
  Urllib.urlparse_netloc (py "http://[::1].x/youtu.be/AAAAAAAAAAA") = None
  /\ extract_video_id (py "http://[::1].x/youtu.be/AAAAAAAAAAA")
     = Some (py "AAAAAAAAAAA").
Proof. split; reflexivity. Qed.

(** C1 as stated fails: a host without a dot is not allow-listed, yet the
    identifier in the path is returned. *)
Lemma extract_video_id_accepts_dotless_foreign_host :
  Urllib.urlparse_netloc
    (strip (py "http://localhost/youtube.com/watch?v=AAAAAAAAAAA"))
  = Some (py "localhost")
  /\ py "localhost" <> []
  /\ ~ In (py "localhost") valid_domains
  /\ extract_video_id (py "http://localhost/youtube.com/watch?v=AAAAAAAAAAA")
     = Some (py "AAAAAAAAAAA").
Proof.
  repeat split; try reflexivity; try discriminate.
  intros H. simpl in H. repeat (destruct H as [H | H]; [discriminate H|]).
  exact H.
Qed.

(** ** Filename sanitization *)

Lemma replace_char_map (c : ascii) (s : str) :
  replace_char c (py "_") s
  = map (fun a => if ascii_eqb c a then "_"%char else a) s.
Proof.
  unfold replace_char. induction s as [|a s IH]; [reflexivity|].
  cbn [flat_map map]. rewrite IH. now destruct (ascii_eqb c a).
Qed.

Lemma replace_fold_map (cs : list ascii) (s : str) :
  fold_left (fun f c => replace_char c (py "_") f) cs s
  = map (fun a => fold_left
                    (fun x c => if ascii_eqb c x then "_"%char else x) cs a)
        s.
Proof.
  revert s. induction cs as [|c cs IH]; intros s; simpl.
  - now rewrite map_id.
  - now rewrite IH, replace_char_map, map_map.
Qed.

Lemma replace_dangerous_map (s : str) :
  replace_dangerous s = map sanitize_char s.
Proof. apply replace_fold_map. Qed.

Lemma sanitize_char_spec (a : ascii) :
  (a <> "/"%char -> safe_char (sanitize_char a) = true)
  /\ (safe_char a = true -> sanitize_char a = a).
Proof.
  destruct a as [[] [] [] [] [] [] [] []]; vm_compute; split; intros H;
    try reflexivity; try discriminate H; exfalso; now apply H.
Qed.

Lemma replace_dangerous_safe (s : str) :
  ~ In "/"%char s -> Forall (fun a => safe_char a = true) (replace_dangerous s).
Proof.
  intros H. rewrite replace_dangerous_map. apply Forall_forall.
  intros x Hx. apply in_map_iff in Hx as [a [<- Ha]].
  apply sanitize_char_spec. intros ->. contradiction.
Qed.

Lemma replace_dangerous_fixed (s : str) :
  Forall (fun a => safe_char a = true) s -> replace_dangerous s = s.
Proof.
  intros H. rewrite replace_dangerous_map.
  induction H as [|a s Ha _ IH]; simpl; [reflexivity|].
  rewrite IH. f_equal. now apply sanitize_char_spec.
Qed.

Lemma take_while_Forall (p : ascii -> bool) (s : str) :
  Forall (fun a => p a = true) (take_while p s).
Proof.
  induction s as [|a s IH]; simpl; [constructor|].
  destruct (p a) eqn:E; constructor; assumption.
Qed.

Lemma take_while_all (p : ascii -> bool) (s : str) :
  Forall (fun a => p a = true) s -> take_while p s = s.
Proof.
  induction 1 as [|a s Ha _ IH]; simpl; [reflexivity|].
  now rewrite Ha, IH.
Qed.

Lemma basename_no_slash (p : str) : ~ In "/"%char (basename p).
Proof.
  unfold basename, after_last. rewrite <- in_rev. intros H.
  pose proof (take_while_Forall
                (fun a => negb (ascii_eqb "/" a)) (rev p)) as F.
  rewrite Forall_forall in F. apply F in H.
  now rewrite ascii_eqb_refl in H.
Qed.

Lemma safe_char_no_slash (s : str) :
  Forall (fun a => safe_char a = true) s -> ~ In "/"%char s.
Proof.
  intros F H. rewrite Forall_forall in F. apply F in H. discriminate H.
Qed.

Lemma basename_fixed (p : str) : ~ In "/"%char p -> basename p = p.
Proof.
  intros H. unfold basename, after_last.
  rewrite take_while_all, rev_involutive; trivial.
  apply Forall_forall. intros a Ha. apply in_rev in Ha.
  destruct (ascii_eqb "/" a) eqn:E; [|reflexivity].
  apply ascii_eqb_eq in E. subst. contradiction.
Qed.

Lemma startswith_app (p t : str) : startswith p (p ++ t) = true.
Proof.
  induction p as [|a p IH]; simpl; [reflexivity|].
  now rewrite ascii_eqb_refl, IH.
Qed.

Lemma endswith_app (p s : str) : endswith p (s ++ p) = true.
Proof. unfold endswith. rewrite rev_app_distr. apply startswith_app. Qed.

Lemma sanitized_nonempty (r : str) : sanitized r -> is_empty r = false.
Proof. intros [_ H _]. destruct r; [discriminate H | reflexivity]. Qed.

Lemma sanitize_filename_sanitized (f : str) : sanitized (sanitize_filename f).
Proof.
  unfold sanitize_filename. destruct (is_empty f).
  { split; [repeat constructor | reflexivity | vm_compute; lia]. }
  pose proof (replace_dangerous_safe _ (basename_no_slash f)) as Hs.
  set (d := replace_dangerous (basename f)) in *.
  set (e := if negb (endswith (py ".md") d) then d ++ py ".md" else d).
  assert (He : Forall (fun a => safe_char a = true) e).
  { subst e. destruct (endswith (py ".md") d); simpl; trivial.
    apply Forall_app. split; [assumption | repeat constructor]. }
  assert (Hm : endswith (py ".md") e = true).
  { subst e. destruct (endswith (py ".md") d) eqn:E; simpl; trivial.
    apply endswith_app. }
  cbv zeta. fold e.
  destruct (255 <? len e) eqn:L.
  - apply Nat.ltb_lt in L. unfold len in *. split.
    + apply Forall_app. split; [|repeat constructor].
      apply Forall_forall. intros a Ha.
      apply (In_nth _ _ "000"%char) in Ha as [n [Hn Hnth]]. subst a.
      rewrite Forall_forall in He. apply He.
      rewrite !length_firstn in Hn.
      rewrite nth_firstn, nth_firstn.
      replace (n <? 250) with true by (symmetry; apply Nat.ltb_lt; lia).
      replace (n <? List.length e - 3) with true
        by (symmetry; apply Nat.ltb_lt; lia).
      apply nth_In. lia.
    + apply endswith_app.
    + unfold len. rewrite length_app, !length_firstn.
      change (List.length (py ".md")) with 3. lia.
  - apply Nat.ltb_ge in L. split; assumption.
Qed.

Lemma sanitize_filename_fixed (r : str) :
  sanitized r -> sanitize_filename r = r.
Proof.
  intros S. pose proof (sanitized_nonempty r S) as N.
  destruct S as [Hs Hm Hl]. unfold sanitize_filename. rewrite N.
  rewrite (basename_fixed r (safe_char_no_slash r Hs)).
  rewrite (replace_dangerous_fixed r Hs), Hm. cbn [negb].
  replace (255 <? len r) with false
    by (symmetry; apply Nat.ltb_ge; exact Hl).
  reflexivity.
Qed.

(** C6.  Sanitizing a filename twice gives the same name as sanitizing
    it once. *)
Theorem sanitize_filename_idempotent (f : str) :
  sanitize_filename (sanitize_filename f) = sanitize_filename f.
Proof. apply sanitize_filename_fixed, sanitize_filename_sanitized. Qed.

(** ** The pipeline and its front-ends *)

Section Stages.

Context {World : Type}.
Variable sv : services World.

Lemma add_nil (st : state World) : add st [] = st.
Proof. destruct st. unfold add. simpl. now rewrite app_nil_r. Qed.

Lemma add_add (st : state World) (a b : list event) :
  add (add st a) b = add st (a ++ b).
Proof. unfold add. simpl. now rewrite app_assoc. Qed.

Lemma get_transcript_run (video_id : str) (st : state World) :
  get_transcript sv video_id st =
  match api_get_transcript sv video_id (world st) with
  | (Some segments, w) =>
      (Ok (Some (join (py " ") segments)),
       {| world := w; log := log st ++ [EvTranscript video_id] |})
  | (None, w) =>
      (Ok None,
       {| world := w;
          log := log st ++ [EvTranscript video_id;
                            EvPrint msg_unable_transcript] |})
  end.
Proof.
  unfold get_transcript, bind, call, print, emit, ret.
  destruct (api_get_transcript sv video_id (world st)) as [[segments|] w];
    simpl; [reflexivity|].
  now rewrite <- app_assoc.
Qed.

Lemma generate_summary_run (transcript : str) (model : pyval)
    (st : state World) :
  let prompt := prompt_head ++ truncate_transcript transcript ++ prompt_tail in
  generate_summary sv transcript model st =
  match completion sv model prompt 1000 (world st) with
  | (Some content, w) =>
      (Ok content,
       {| world := w; log := log st ++ [EvCompletion model prompt 1000] |})
  | (None, w) =>
      (Ok None,
       {| world := w;
          log := log st ++ [EvCompletion model prompt 1000;
                            EvPrint msg_unable_summary] |})
  end.
Proof.
  intros prompt. unfold generate_summary, bind, call, print, emit, ret.
  fold prompt.
  destruct (completion sv model prompt 1000 (world st)) as [[content|] w];
    simpl; [reflexivity|].
  now rewrite <- app_assoc.
Qed.

Lemma save_to_markdown_run (transcript summary : str)
    (output_file video_url model_name : pyval) (st : state World) :
  save_outcome sv output_file video_url model_name transcript summary st
    (save_to_markdown sv transcript summary output_file video_url
                      model_name st).
Proof.
  unfold save_to_markdown, bind, lift, ask, call, print, emit, ret.
  destruct (sanitize_filename_dyn output_file) as [name|e] eqn:Es;
    [|now apply SaveTypeError].
  destruct (path_resolve sv name (world st)) as [safe_path|e] eqn:Er;
    [|now apply SaveResolveError with name].
  destruct (path_cwd sv (world st)) as [current_dir|e] eqn:Ec;
    [|now apply SaveCwdError with name safe_path].
  destruct (is_within current_dir safe_path) eqn:Ew; cbn [negb].
  - destruct (open_write sv safe_path _ (world st)) as [[] w] eqn:Eo;
      cbn [world log]; rewrite <- app_assoc.
    + now apply SaveWritten with name current_dir.
    + now apply SaveWriteFailed with name current_dir.
  - now apply SaveOutside with name safe_path current_dir.
Qed.

End Stages.

Section Confinement.

Context {World : Type}.
Variable sv : services World.

Lemma is_within_prefix (d p : path) :
  is_within d p = true <-> exists rest, p = d ++ rest.
Proof.
  revert p. induction d as [|a d IH]; intros p; simpl.
  - split; [intros _; now exists p | reflexivity].
  - destruct p as [|b p]; [split; [discriminate | intros [r H]; discriminate H]|].
    rewrite andb_true_iff, str_eqb_eq, IH. split.
    + intros [-> [r ->]]. now exists r.
    + intros [r H]. injection H as -> ->. split; [reflexivity | now exists r].
Qed.

Lemma sanitize_filename_no_slash (f : str) :
  ~ In "/"%char (sanitize_filename f).
Proof.
  apply safe_char_no_slash, sanitize_filename_sanitized.
Qed.

Lemma sanitize_filename_dyn_no_slash (v : pyval) (name : str) :
  sanitize_filename_dyn v = Ok name -> ~ In "/"%char name.
Proof.
  destruct v; simpl; try destruct (negb _); intros H;
    try discriminate H; injection H as <-;
    try apply sanitize_filename_no_slash;
    (intros Hin; simpl in Hin;
     repeat (destruct Hin as [Hin | Hin]; [discriminate Hin|]); exact Hin).
Qed.

Lemma written_app (a b : list event) : written (a ++ b) = written a ++ written b.
Proof. apply flat_map_app. Qed.

(** C2, as the code has it.  Whatever filename is requested, path
    traversal included, [save_to_markdown] opens at most one file: the
    path that resolving the sanitized base name gives, the name being
    one without a directory separator, and only when that path lies
    inside the resolved working directory.  The file opened is the
    resolved path, which a symbolic link may take away from the working
    directory joined with the name.  When the resolved target lies
    outside the working directory nothing is written and the result is
    [False]. *)
Theorem save_to_markdown_confined (transcript summary : str)
    (output_file : str) (video_url model_name : pyval) (st : state World) :
  let name := sanitize_filename output_file in
  let run := save_to_markdown sv transcript summary (PStr output_file)
                              video_url model_name st in
  ~ In "/"%char name
  /\ (exists ws,
        written (log (snd run)) = written (log st) ++ ws
        /\ (ws = [] \/ exists target, ws = [target])
        /\ forall target, In target ws ->
             path_resolve sv name (world st) = Ok target
             /\ exists current_dir rest,
                  path_cwd sv (world st) = Ok current_dir
                  /\ target = current_dir ++ rest)
  /\ (forall target current_dir,
        path_resolve sv name (world st) = Ok target ->
        path_cwd sv (world st) = Ok current_dir ->
        is_within current_dir target = false ->
        fst run = Ok false /\ written (log (snd run)) = written (log st)).
Proof.
  intros name run. split; [apply sanitize_filename_no_slash|].
  pose proof (save_to_markdown_run sv transcript summary (PStr output_file)
                video_url model_name st) as R.
  fold run in R. simpl sanitize_filename_dyn in R. subst name.
  split.
  - inversion R as [e Hs Hr | n e Hs Hp Hr | n p e Hs Hp Hc Hr
                    | n p c Hs Hp Hc Hw Hr | n p c w Hs Hp Hc Hw ct Ho Hr
                    | n p c w Hs Hp Hc Hw ct Ho Hr];
      try (injection Hs as <-);
      try (exists []; cbn [snd add log]; rewrite ?written_app, ?app_nil_r;
           split; [reflexivity | split; [now left | intros t []]]).
    + exists [p]. cbn [snd log]. rewrite written_app. split; [reflexivity|].
      split; [right; now exists p|]. intros t [<-|[]]. split; [exact Hp|].
      apply is_within_prefix in Hw as [rest ->]. exists c, rest.
      split; [exact Hc | reflexivity].
    + exists [p]. cbn [snd log]. rewrite written_app. split; [reflexivity|].
      split; [right; now exists p|]. intros t [<-|[]]. split; [exact Hp|].
      apply is_within_prefix in Hw as [rest ->]. exists c, rest.
      split; [exact Hc | reflexivity].
  - intros target current_dir Hp' Hc' Hw'.
    inversion R as [e Hs Hr | n e Hs Hp Hr | n p e Hs Hp Hc Hr
                    | n p c Hs Hp Hc Hw Hr | n p c w Hs Hp Hc Hw ct Ho Hr
                    | n p c w Hs Hp Hc Hw ct Ho Hr];
      try discriminate Hs; injection Hs as <-;
      try congruence.
    cbn [fst snd add log]. rewrite written_app. simpl. rewrite app_nil_r.
    split; reflexivity.
Qed.

End Confinement.

Example save_to_markdown_traversal :
  sanitize_filename (py "../../etc/passwd") = py "passwd.md"
  /\ save_to_markdown scripted (py "t") (py "s") (PStr (py "../../etc/passwd"))
       (PStr (py "dQw4w9WgXcQ")) PNone (start fair)
     = (Ok true,
        {| world := fair;
           log := [EvWrite (home ++ [py "passwd.md"])
                     (document (py "dQw4w9WgXcQ") (py "s") (py "AI model")
                               (py "t"));
                   EvPrint (py "Summary and transcript saved to: /home/user/passwd.md")] |}).
Proof. split; reflexivity. Qed.

(** The claim's "current directory joined with the sanitized name" does
    not hold of a name that is a symbolic link inside the directory:
    the request [../../etc/passwd] is sanitized to [passwd.md], and the
    file opened is [/home/user/sub/other.md]. *)
Lemma save_to_markdown_follows_inner_link :
  let run := save_to_markdown scripted (py "t") (py "s")
               (PStr (py "../../etc/passwd")) (PStr (py "dQw4w9WgXcQ")) PNone
               (start linked_inside) in
  sanitize_filename (py "../../etc/passwd") = py "passwd.md"
  /\ path_cwd scripted linked_inside = Ok home
  /\ fst run = Ok true
  /\ written (log (snd run)) = [home ++ [py "sub"; py "other.md"]]
  /\ home ++ [py "sub"; py "other.md"]
     <> home ++ [sanitize_filename (py "../../etc/passwd")].
Proof.
  cbv zeta. repeat split; try reflexivity. discriminate.
Qed.

Lemma save_to_markdown_confined_witness :
  ~ In "/"%char (sanitize_filename (py "../../etc/passwd"))
  /\ fst (save_to_markdown scripted (py "t") (py "s")
            (PStr (py "../../etc/passwd")) (PStr (py "dQw4w9WgXcQ")) PNone
            (start escaping))
     = Ok false
  /\ written (log (snd (save_to_markdown scripted (py "t") (py "s")
                          (PStr (py "../../etc/passwd"))
                          (PStr (py "dQw4w9WgXcQ")) PNone (start escaping))))
     = [].
Proof.
  split.
  - exact (proj1 (save_to_markdown_confined scripted (py "t") (py "s")
                    (py "../../etc/passwd") (PStr (py "dQw4w9WgXcQ")) PNone
                    (start fair))).
  - exact (proj2 (proj2 (save_to_markdown_confined scripted (py "t") (py "s")
                           (py "../../etc/passwd") (PStr (py "dQw4w9WgXcQ"))
                           PNone (start escaping)))
             [py "etc"; py "passwd"] home eq_refl eq_refl eq_refl).
Defined.

Section Generation.

Context {World : Type}.
Variable sv : services World.

Lemma sent_prompts_app (a b : list event) :
  sent_prompts (a ++ b) = sent_prompts a ++ sent_prompts b.
Proof. apply flat_map_app. Qed.

Lemma generate_summary_sends (transcript : str) (model : pyval)
    (st : state World) :
  sent_prompts (log (snd (generate_summary sv transcript model st)))
  = sent_prompts (log st)
    ++ [prompt_head ++ truncate_transcript transcript ++ prompt_tail].
Proof.
  rewrite generate_summary_run.
  destruct (completion sv model _ 1000 (world st)) as [[content|] w];
    cbn [snd log]; now rewrite sent_prompts_app.
Qed.

(** C5.  For a transcript of more than 8000 characters the prompt that
    [generate_summary] sends to the generation service embeds exactly
    its first 8000 characters followed by the marker [...]; a
    transcript of at most 8000 characters is embedded as it is. *)
Theorem generate_summary_truncates (transcript : str) (model : pyval)
    (st : state World) :
  let sent := sent_prompts (log (snd (generate_summary sv transcript model st))) in
  (8000 < len transcript ->
     sent = sent_prompts (log st)
            ++ [prompt_head ++ (firstn 8000 transcript ++ py "...")
                ++ prompt_tail]
     /\ len (firstn 8000 transcript) = 8000)
  /\ (len transcript <= 8000 ->
        sent = sent_prompts (log st)
               ++ [prompt_head ++ transcript ++ prompt_tail]).
Proof.
  intros sent. subst sent. rewrite generate_summary_sends.
  unfold truncate_transcript. change 8000 with max_transcript_length.
  generalize max_transcript_length. intros n. split; intros H.
  - apply Nat.ltb_lt in H as H'. rewrite H'. split; [reflexivity|].
    unfold len in *. rewrite length_firstn. lia.
  - apply Nat.ltb_ge in H. now rewrite H.
Qed.

End Generation.

Lemma generate_summary_truncates_witness :
  sent_prompts
    (log (snd (generate_summary scripted long_transcript default_model
                                (start fair))))
  = [prompt_head ++ (firstn 8000 long_transcript ++ py "...") ++ prompt_tail]
  /\ len (firstn 8000 long_transcript) = 8000.
Proof.
  apply (proj1 (generate_summary_truncates scripted long_transcript
                  default_model (start fair))).
  apply Nat.ltb_lt. vm_compute. reflexivity.
Defined.

Lemma take_id_nil (n : nat) : Re.take_id (S n) [] = None.
Proof. reflexivity. Qed.

Lemma match_id_nonempty (v : str) : Re.match_id v = true -> is_empty v = false.
Proof. destruct v; [discriminate | reflexivity]. Qed.

Lemma first_pattern_valid (ps : list Re.pattern) (u v : str) :
  first_pattern ps u = Some v -> Re.match_id v = true.
Proof.
  induction ps as [|p ps IH]; simpl; [discriminate|].
  destruct (Re.search p u) as [m|]; [|exact IH].
  destruct (Re.match_id m) eqn:E; [|exact IH].
  intros H. injection H as <-. exact E.
Qed.

Lemma extract_video_id_nonempty (url v : str) :
  extract_video_id url = Some v -> is_empty v = false.
Proof.
  unfold extract_video_id. destruct (is_empty url); [discriminate|].
  destruct (foreign_domain (strip url)); [discriminate|].
  destruct (first_pattern patterns (strip url)) as [m|] eqn:E.
  - intros H. injection H as <-.
    eapply match_id_nonempty, first_pattern_valid, E.
  - destruct (Re.match_id (strip url)) eqn:M; [|discriminate].
    intros H. injection H as <-. now apply match_id_nonempty.
Qed.

Lemma extract_video_id_dyn_nonempty (url : pyval) (v : str) :
  extract_video_id_dyn url = Some v -> is_empty v = false.
Proof.
  destruct url; simpl; try discriminate. apply extract_video_id_nonempty.
Qed.

Section Rpc.

Context {World : Type}.
Variable sv : services World.
Variable d : list (str * pyval).

Let url := dict_get d "url" PNone.
Let model := dict_get d "model" default_model.
Let output_file := dict_get d "output_file" (PStr (py "transcript.md")).
Let save_to_file := dict_get d "save_to_file" (PBool false).

Lemma rpc_missing_input (st : state World) :
  truthy url = false ->
  _youtube_summary sv (PDict d) st
  = (Ok (error_result (py "URL is required")), st).
Proof.
  intros H. unfold _youtube_summary, bind, lift, py_get.
  fold (dict_get d "url" PNone). fold url. now rewrite H.
Qed.

Lemma rpc_invalid_identifier (st : state World) :
  truthy url = true ->
  extract_video_id_dyn url = None ->
  _youtube_summary sv (PDict d) st
  = (Ok (error_result (py "Invalid YouTube URL or video ID")), st).
Proof.
  intros H E. unfold _youtube_summary, bind, lift, py_get.
  fold (dict_get d "url" PNone). fold url. now rewrite H, E.
Qed.

Lemma rpc_fetch_stops (st st1 : state World) (video_id : str)
    (transcript : option str) :
  truthy url = true ->
  extract_video_id_dyn url = Some video_id ->
  get_transcript sv video_id st = (Ok transcript, st1) ->
  falsy transcript = true ->
  _youtube_summary sv (PDict d) st
  = (Ok (error_result (py "Failed to download transcript")), st1).
Proof.
  intros H E G F. unfold _youtube_summary, bind, lift, py_get.
  fold (dict_get d "url" PNone). fold url. rewrite H, E.
  cbn [negb falsy]. rewrite (extract_video_id_dyn_nonempty url video_id E).
  now rewrite G, F.
Qed.

Lemma rpc_generation_stops (st st1 st2 : state World)
    (video_id transcript : str) (summary : option str) :
  truthy url = true ->
  extract_video_id_dyn url = Some video_id ->
  get_transcript sv video_id st = (Ok (Some transcript), st1) ->
  is_empty transcript = false ->
  generate_summary sv transcript model st1 = (Ok summary, st2) ->
  falsy summary = true ->
  _youtube_summary sv (PDict d) st
  = (Ok (error_result (py "Failed to generate summary")), st2).
Proof.
  intros H E G T S F. unfold _youtube_summary, bind, lift, py_get.
  fold (dict_get d "url" PNone). fold url.
  fold (dict_get d "model" default_model). fold model. rewrite H, E.
  cbn [negb falsy]. rewrite (extract_video_id_dyn_nonempty url video_id E).
  rewrite G. cbn [falsy]. rewrite T, S. now rewrite F.
Qed.

Lemma rpc_without_save (st st1 st2 : state World)
    (video_id transcript summary : str) :
  truthy url = true ->
  extract_video_id_dyn url = Some video_id ->
  get_transcript sv video_id st = (Ok (Some transcript), st1) ->
  is_empty transcript = false ->
  generate_summary sv transcript model st1 = (Ok (Some summary), st2) ->
  is_empty summary = false ->
  truthy save_to_file = false ->
  _youtube_summary sv (PDict d) st
  = (Ok (tool_content (base_result video_id url transcript summary model)),
     st2).
Proof.
  intros H E G T S F V. unfold _youtube_summary, bind, lift, py_get.
  fold (dict_get d "url" PNone). fold url.
  fold (dict_get d "model" default_model). fold model.
  fold (dict_get d "save_to_file" (PBool false)). fold save_to_file.
  rewrite H, E.
  cbn [negb falsy]. rewrite (extract_video_id_dyn_nonempty url video_id E).
  rewrite G. cbn [falsy]. rewrite T, S. cbn [falsy]. rewrite F, V.
  reflexivity.
Qed.

Lemma rpc_with_save (st st1 st2 st3 : state World)
    (video_id transcript summary : str) (saved : res bool) :
  truthy url = true ->
  extract_video_id_dyn url = Some video_id ->
  get_transcript sv video_id st = (Ok (Some transcript), st1) ->
  is_empty transcript = false ->
  generate_summary sv transcript model st1 = (Ok (Some summary), st2) ->
  is_empty summary = false ->
  truthy save_to_file = true ->
  save_to_markdown sv transcript summary output_file url model st2
  = (saved, st3) ->
  _youtube_summary sv (PDict d) st
  = (match saved with
     | Ok true =>
         Ok (tool_content
               (base_result video_id url transcript summary model
                ++ [ kv "saved_to_file" (PBool true);
                     kv "output_file" output_file ]))
     | Ok false =>
         Ok (tool_content
               (base_result video_id url transcript summary model
                ++ [ kv "saved_to_file" (PBool false) ]))
     | Raise e => Raise e
     end, st3).
Proof.
  intros H E G T S F V W. unfold _youtube_summary, bind, lift, py_get.
  fold (dict_get d "url" PNone). fold url.
  fold (dict_get d "model" default_model). fold model.
  fold (dict_get d "output_file" (PStr (py "transcript.md"))).
  fold output_file.
  fold (dict_get d "save_to_file" (PBool false)). fold save_to_file.
  rewrite H, E.
  cbn [negb falsy]. rewrite (extract_video_id_dyn_nonempty url video_id E).
  rewrite G. cbn [falsy]. rewrite T, S. cbn [falsy]. rewrite F, V, W.
  destruct saved as [[]|e]; reflexivity.
Qed.

End Rpc.

Section Cli.

Context {World : Type}.
Variable sv : services World.
Variable args : cli_args.
Variable url : str.
Hypothesis given : arg_url args = Some url.
Hypothesis nonempty : is_empty url = false.

(** Enter [cli_main] past the check that a URL was given. *)
Ltac enter_cli :=
  unfold cli_main, bind, ret, print, emit;
  rewrite given; cbn [falsy]; rewrite nonempty; cbv beta iota;
  rewrite ?nonempty.

Lemma cli_invalid_identifier (st : state World) :
  extract_video_id url = None ->
  cli_main sv args st
  = (Ok 1, add st [EvPrint (py "Error: Invalid YouTube URL or video ID")]).
Proof.
  intros E. enter_cli. rewrite E. reflexivity.
Qed.

Lemma cli_fetch_stops (st st1 : state World) (video_id : str)
    (transcript : option str) :
  extract_video_id url = Some video_id ->
  get_transcript sv video_id
    (add st [EvPrint (py "Video ID: " ++ video_id);
             EvPrint (py "Downloading transcript...")])
  = (Ok transcript, st1) ->
  falsy transcript = true ->
  cli_main sv args st
  = (Ok 1, add st1 [EvPrint (py "Failed to download transcript")]).
Proof.
  intros E G F. enter_cli. rewrite E.
  rewrite (extract_video_id_nonempty url video_id E).
  cbn [world log]. rewrite <- app_assoc.
  unfold add in G. cbn [app] in *. rewrite G, F. reflexivity.
Qed.

Lemma cli_generation_stops (st st1 st2 : state World)
    (video_id transcript : str) (summary : option str) :
  extract_video_id url = Some video_id ->
  get_transcript sv video_id
    (add st [EvPrint (py "Video ID: " ++ video_id);
             EvPrint (py "Downloading transcript...")])
  = (Ok (Some transcript), st1) ->
  is_empty transcript = false ->
  generate_summary sv transcript (PStr (arg_model args))
    (add st1 [EvPrint (py "Transcript downloaded successfully");
              EvPrint (py "Generating summary using " ++ arg_model args
                       ++ py "...")])
  = (Ok summary, st2) ->
  falsy summary = true ->
  cli_main sv args st
  = (Ok 1, add st2 [EvPrint (py "Failed to generate summary")]).
Proof.
  intros E G T S F. enter_cli. rewrite E.
  rewrite (extract_video_id_nonempty url video_id E).
  cbn [world log]. rewrite <- app_assoc.
  unfold add in G. cbn [app] in *. rewrite G. cbn [falsy]. rewrite T.
  cbn [world log]. rewrite <- app_assoc.
  unfold add in S. cbn [app] in *. rewrite S, F. reflexivity.
Qed.

Lemma cli_save (st st1 st2 st3 : state World)
    (video_id transcript summary : str) (saved : res bool) :
  extract_video_id url = Some video_id ->
  get_transcript sv video_id
    (add st [EvPrint (py "Video ID: " ++ video_id);
             EvPrint (py "Downloading transcript...")])
  = (Ok (Some transcript), st1) ->
  is_empty transcript = false ->
  generate_summary sv transcript (PStr (arg_model args))
    (add st1 [EvPrint (py "Transcript downloaded successfully");
              EvPrint (py "Generating summary using " ++ arg_model args
                       ++ py "...")])
  = (Ok (Some summary), st2) ->
  is_empty summary = false ->
  save_to_markdown sv transcript summary (PStr (arg_output args))
    (PStr url) (PStr (arg_model args))
    (add st2 [EvPrint (py "Summary generated successfully")])
  = (saved, st3) ->
  cli_main sv args st
  = (match saved with
     | Ok true => Ok 0
     | Ok false => Ok 1
     | Raise e => Raise e
     end, st3).
Proof.
  intros E G T S F W. enter_cli. rewrite E.
  rewrite (extract_video_id_nonempty url video_id E).
  cbn [world log]. rewrite <- app_assoc.
  unfold add in G. cbn [app] in *. rewrite G. cbn [falsy]. rewrite T.
  cbn [world log]. rewrite <- app_assoc.
  unfold add in S. cbn [app] in *. rewrite S. cbn [falsy]. rewrite F.
  cbn [world log]. unfold add in W. rewrite W.
  destruct saved as [[]|e]; reflexivity.
Qed.

End Cli.

Section Sequence.

Context {World : Type}.
Variable sv : services World.

Lemma stages_app (a b : list event) : stages (a ++ b) = stages a ++ stages b.
Proof. apply flat_map_app. Qed.

Lemma grows_refl (st : state World) : grows st st [].
Proof. exists []. now rewrite app_nil_r. Qed.

Lemma grows_trans (a b c : state World) (s1 s2 : list stage) :
  grows a b s1 -> grows b c s2 -> grows a c (s1 ++ s2).
Proof.
  intros [n1 [H1 S1]] [n2 [H2 S2]]. exists (n1 ++ n2).
  rewrite H2, H1, <- app_assoc, stages_app, S1, S2. now split.
Qed.

Lemma grows_add (st : state World) (evs : list event) :
  grows st (add st evs) (stages evs).
Proof. now exists evs. Qed.

Lemma grows_same_log (st : state World) (w : World) :
  grows st {| world := w; log := log st |} [].
Proof. exists []. simpl. now rewrite app_nil_r. Qed.

Lemma get_transcript_grows (video_id : str) (st : state World) :
  exists t st1, get_transcript sv video_id st = (Ok t, st1)
                /\ grows st st1 [Fetch].
Proof.
  rewrite get_transcript_run.
  destruct (api_get_transcript sv video_id (world st)) as [[s|] w];
    do 2 eexists; (split; [reflexivity|]); eexists; split;
    simpl; reflexivity.
Qed.

Lemma generate_summary_grows (transcript : str) (model : pyval)
    (st : state World) :
  exists s st1, generate_summary sv transcript model st = (Ok s, st1)
                /\ grows st st1 [Generate].
Proof.
  rewrite generate_summary_run.
  destruct (completion sv model _ 1000 (world st)) as [[s|] w];
    do 2 eexists; (split; [reflexivity|]); eexists; split;
    simpl; reflexivity.
Qed.

Lemma save_to_markdown_grows (transcript summary : str)
    (output_file video_url model_name : pyval) (st : state World) :
  let run := save_to_markdown sv transcript summary output_file video_url
                              model_name st in
  grows st (snd run) [] \/ grows st (snd run) [Save].
Proof.
  intros run.
  pose proof (save_to_markdown_run sv transcript summary output_file
                video_url model_name st) as R. fold run in R.
  inversion R; cbn [snd];
    try (left; apply grows_refl);
    try (left; apply (grows_add st [EvPrint _]));
    right; eexists; split; simpl; reflexivity.
Qed.

Lemma in_sequence_0 : in_sequence [].
Proof. now exists 0. Qed.
Lemma in_sequence_1 : in_sequence [Fetch].
Proof. now exists 1. Qed.
Lemma in_sequence_2 : in_sequence [Fetch; Generate].
Proof. now exists 2. Qed.
Lemma in_sequence_3 : in_sequence [Fetch; Generate; Save].
Proof. now exists 3. Qed.

(** Every run of the tool goes through the stages in their order. *)
Lemma rpc_in_sequence (args : pyval) (st : state World) :
  exists ss, grows st (snd (_youtube_summary sv args st)) ss
             /\ in_sequence ss.
Proof.
  assert (Hraise : forall e, _youtube_summary sv args st = (Raise e, st) ->
            exists ss, grows st (snd (_youtube_summary sv args st)) ss
                       /\ in_sequence ss).
  { intros e ->. exists []. split; [apply grows_refl | apply in_sequence_0]. }
  destruct args as [| | | | | |l|d]; try (eapply Hraise; reflexivity).
  clear Hraise.
  set (url := dict_get d "url" PNone).
  set (model := dict_get d "model" default_model).
  set (output_file := dict_get d "output_file" (PStr (py "transcript.md"))).
  destruct (truthy url) eqn:H.
  2:{ rewrite (rpc_missing_input sv d st H). exists [].
      split; [apply grows_refl | apply in_sequence_0]. }
  destruct (extract_video_id_dyn url) as [video_id|] eqn:E.
  2:{ rewrite (rpc_invalid_identifier sv d st H E). exists [].
      split; [apply grows_refl | apply in_sequence_0]. }
  destruct (get_transcript_grows video_id st) as (t & st1 & G & G1).
  destruct (falsy t) eqn:F.
  { rewrite (rpc_fetch_stops sv d st st1 video_id t H E G F).
    exists [Fetch]. split; [exact G1 | apply in_sequence_1]. }
  destruct t as [transcript|]; [|discriminate F]. cbn [falsy] in F.
  destruct (generate_summary_grows transcript model st1)
    as (s & st2 & S & S1).
  destruct (falsy s) eqn:F2.
  { rewrite (rpc_generation_stops sv d st st1 st2 video_id transcript s
               H E G F S F2).
    exists [Fetch; Generate].
    split; [apply (grows_trans st st1 st2 [Fetch] [Generate] G1 S1)
           | apply in_sequence_2]. }
  destruct s as [summary|]; [|discriminate F2]. cbn [falsy] in F2.
  pose proof (grows_trans st st1 st2 [Fetch] [Generate] G1 S1) as G2.
  destruct (truthy (dict_get d "save_to_file" (PBool false))) eqn:V.
  2:{ rewrite (rpc_without_save sv d st st1 st2 video_id transcript summary
                 H E G F S F2 V).
      exists [Fetch; Generate]. split; [exact G2 | apply in_sequence_2]. }
  destruct (save_to_markdown sv transcript summary output_file url model st2)
    as [saved st3] eqn:W.
  rewrite (rpc_with_save sv d st st1 st2 st3 video_id transcript summary
             saved H E G F S F2 V W). cbn [snd].
  pose proof (save_to_markdown_grows transcript summary output_file url
                model st2) as G3.
  cbv zeta in G3. rewrite W in G3. cbn [snd] in G3.
  destruct G3 as [G3|G3].
  - exists [Fetch; Generate]. split; [|apply in_sequence_2].
    apply (grows_trans st st2 st3 [Fetch; Generate] [] G2 G3).
  - exists [Fetch; Generate; Save]. split; [|apply in_sequence_3].
    apply (grows_trans st st2 st3 [Fetch; Generate] [Save] G2 G3).
Qed.

End Sequence.

Section CliSequence.

Context {World : Type}.
Variable sv : services World.

Lemma grows_print (a b : state World) (ss : list stage) (line : str) :
  grows a b ss -> grows a (add b [EvPrint line]) ss.
Proof.
  intros G. rewrite <- (app_nil_r ss).
  apply (grows_trans a b _ ss [] G). apply (grows_add b [EvPrint line]).
Qed.

Lemma grows_after_prints (a c : state World) (ss : list stage)
    (l1 l2 : str) :
  grows (add a [EvPrint l1; EvPrint l2]) c ss -> grows a c ss.
Proof.
  intros G.
  apply (grows_trans a _ c [] ss (grows_add a [EvPrint l1; EvPrint l2]) G).
Qed.

Lemma cli_given_in_sequence (args : cli_args) (url : str)
    (st : state World) :
  arg_url args = Some url ->
  is_empty url = false ->
  exists ss, grows st (snd (cli_main sv args st)) ss /\ in_sequence ss.
Proof.
  intros given nonempty.
  destruct (extract_video_id url) as [video_id|] eqn:E.
  2:{ rewrite (cli_invalid_identifier sv args url given nonempty st E).
      exists []. split; [apply (grows_add st [EvPrint _])
                        | apply in_sequence_0]. }
  destruct (get_transcript_grows sv video_id
              (add st [EvPrint (py "Video ID: " ++ video_id);
                       EvPrint (py "Downloading transcript...")]))
    as (t & st1 & G & G1).
  apply grows_after_prints in G1.
  destruct (falsy t) eqn:F.
  { rewrite (cli_fetch_stops sv args url given nonempty st st1 video_id t
               E G F).
    exists [Fetch]. split; [now apply grows_print | apply in_sequence_1]. }
  destruct t as [transcript|]; [|discriminate F]. cbn [falsy] in F.
  destruct (generate_summary_grows sv transcript (PStr (arg_model args))
              (add st1 [EvPrint (py "Transcript downloaded successfully");
                        EvPrint (py "Generating summary using "
                                 ++ arg_model args ++ py "...")]))
    as (s & st2 & S & S1).
  apply grows_after_prints in S1.
  pose proof (grows_trans st st1 st2 [Fetch] [Generate] G1 S1) as G2.
  destruct (falsy s) eqn:F2.
  { rewrite (cli_generation_stops sv args url given nonempty st st1 st2
               video_id transcript s E G F S F2).
    exists [Fetch; Generate].
    split; [now apply grows_print | apply in_sequence_2]. }
  destruct s as [summary|]; [|discriminate F2]. cbn [falsy] in F2.
  destruct (save_to_markdown sv transcript summary (PStr (arg_output args))
              (PStr url) (PStr (arg_model args))
              (add st2 [EvPrint (py "Summary generated successfully")]))
    as [saved st3] eqn:W.
  rewrite (cli_save sv args url given nonempty st st1 st2 st3 video_id
             transcript summary saved E G F S F2 W). cbn [snd].
  pose proof (save_to_markdown_grows sv transcript summary
                (PStr (arg_output args)) (PStr url) (PStr (arg_model args))
                (add st2 [EvPrint (py "Summary generated successfully")]))
    as G3.
  cbv zeta in G3. rewrite W in G3. cbn [snd] in G3.
  apply (grows_print st st2 _ (py "Summary generated successfully")) in G2.
  destruct G3 as [G3|G3].
  - exists [Fetch; Generate]. split; [|apply in_sequence_2].
    apply (grows_trans st _ st3 [Fetch; Generate] [] G2 G3).
  - exists [Fetch; Generate; Save]. split; [|apply in_sequence_3].
    apply (grows_trans st _ st3 [Fetch; Generate] [Save] G2 G3).
Qed.

(** Without a URL on the command line the tool prompts for one and
    goes on as if the trimmed answer had been given. *)
Lemma cli_prompted (args : cli_args) (st : state World) :
  falsy (arg_url args) = true ->
  cli_main sv args st =
  match input sv (py "Enter YouTube video URL: ") (world st) with
  | (Raise e, w) => (Raise e, {| world := w; log := log st |})
  | (Ok l, w) =>
      if is_empty (strip l) then
        (Ok 1, add {| world := w; log := log st |}
                   [EvPrint (py "Error: No YouTube URL provided")])
      else
        cli_main sv {| arg_url := Some (strip l);
                       arg_output := arg_output args;
                       arg_model := arg_model args |}
                 {| world := w; log := log st |}
  end.
Proof.
  intros F. unfold cli_main at 1. unfold bind at 1. rewrite F.
  unfold bind at 1.
  destruct (input sv (py "Enter YouTube video URL: ") (world st))
    as [[l|e] w]; [|reflexivity].
  unfold ret at 1. cbv beta iota.
  destruct (is_empty (strip l)) eqn:N; [reflexivity|].
  unfold cli_main. cbn [arg_url arg_output arg_model falsy]. rewrite N.
  unfold bind, ret. cbv beta iota. rewrite N. reflexivity.
Qed.

(** Every run of the command-line tool goes through the stages in
    their order. *)
Lemma cli_in_sequence (args : cli_args) (st : state World) :
  exists ss, grows st (snd (cli_main sv args st)) ss /\ in_sequence ss.
Proof.
  destruct (falsy (arg_url args)) eqn:F.
  - rewrite (cli_prompted args st F).
    destruct (input sv (py "Enter YouTube video URL: ") (world st))
      as [[l|e] w].
    + destruct (is_empty (strip l)) eqn:N.
      * exists []. split; [|apply in_sequence_0]. cbn [snd].
        apply (grows_print st _ [] _ (grows_same_log st w)).
      * destruct (cli_given_in_sequence
                    {| arg_url := Some (strip l);
                       arg_output := arg_output args;
                       arg_model := arg_model args |}
                    (strip l) {| world := w; log := log st |}
                    eq_refl N) as (ss & G & I).
        exists ss. split; [|exact I].
        apply (grows_trans st _ _ [] ss (grows_same_log st w) G).
    + exists []. split; [apply grows_same_log | apply in_sequence_0].
  - destruct (arg_url args) as [url|] eqn:U; [|discriminate F].
    now apply (cli_given_in_sequence args url st U).
Qed.

End CliSequence.

Section StrictSequence.

Context {World : Type}.
Variable sv : services World.

(** C3.  When the transcript service fails, both front-ends report a
    transcript-fetch failure and the log ends with the fetch: the
    generation service is never called.  More generally every run goes
    through fetch, generate and save in that order and no further than
    the first stage that fails: a failed resolution leaves no call at
    all, a failed generation leaves the run in the state the
    generation stage left.  Each stage has its own message. *)
Theorem pipeline_stops_at_first_failure :
  (forall d st video_id w,
      let url := dict_get d "url" PNone in
      truthy url = true ->
      extract_video_id_dyn url = Some video_id ->
      api_get_transcript sv video_id (world st) = (None, w) ->
      _youtube_summary sv (PDict d) st
      = (Ok (error_result (py "Failed to download transcript")),
         {| world := w;
            log := log st ++ [EvTranscript video_id;
                              EvPrint msg_unable_transcript] |}))
  /\ (forall args url st video_id w,
         arg_url args = Some url ->
         is_empty url = false ->
         extract_video_id url = Some video_id ->
         api_get_transcript sv video_id (world st) = (None, w) ->
         cli_main sv args st
         = (Ok 1,
            {| world := w;
               log := log st
                      ++ [EvPrint (py "Video ID: " ++ video_id);
                          EvPrint (py "Downloading transcript...");
                          EvTranscript video_id;
                          EvPrint msg_unable_transcript;
                          EvPrint (py "Failed to download transcript")] |}))
  /\ (forall args st,
         exists ss, grows st (snd (_youtube_summary sv args st)) ss
                    /\ in_sequence ss)
  /\ (forall args st,
         exists ss, grows st (snd (cli_main sv args st)) ss
                    /\ in_sequence ss)
  /\ (forall d st,
         let url := dict_get d "url" PNone in
         truthy url = true ->
         extract_video_id_dyn url = None ->
         _youtube_summary sv (PDict d) st
         = (Ok (error_result (py "Invalid YouTube URL or video ID")), st))
  /\ (forall args url st,
         arg_url args = Some url ->
         is_empty url = false ->
         extract_video_id url = None ->
         cli_main sv args st
         = (Ok 1,
            add st [EvPrint (py "Error: Invalid YouTube URL or video ID")]))
  /\ (forall d st st1 st2 video_id transcript summary,
         let url := dict_get d "url" PNone in
         let model := dict_get d "model" default_model in
         truthy url = true ->
         extract_video_id_dyn url = Some video_id ->
         get_transcript sv video_id st = (Ok (Some transcript), st1) ->
         is_empty transcript = false ->
         generate_summary sv transcript model st1 = (Ok summary, st2) ->
         falsy summary = true ->
         _youtube_summary sv (PDict d) st
         = (Ok (error_result (py "Failed to generate summary")), st2)
         /\ grows st st2 [Fetch; Generate])
  /\ (forall args url st st1 st2 video_id transcript summary,
         arg_url args = Some url ->
         is_empty url = false ->
         extract_video_id url = Some video_id ->
         get_transcript sv video_id
           (add st [EvPrint (py "Video ID: " ++ video_id);
                    EvPrint (py "Downloading transcript...")])
         = (Ok (Some transcript), st1) ->
         is_empty transcript = false ->
         generate_summary sv transcript (PStr (arg_model args))
           (add st1 [EvPrint (py "Transcript downloaded successfully");
                     EvPrint (py "Generating summary using "
                              ++ arg_model args ++ py "...")])
         = (Ok summary, st2) ->
         falsy summary = true ->
         cli_main sv args st
         = (Ok 1, add st2 [EvPrint (py "Failed to generate summary")])
         /\ grows st st2 [Fetch; Generate])
  /\ NoDup [py "URL is required"; py "Invalid YouTube URL or video ID";
            py "Failed to download transcript";
            py "Failed to generate summary"]
  /\ NoDup [py "Error: No YouTube URL provided";
            py "Error: Invalid YouTube URL or video ID";
            py "Failed to download transcript";
            py "Failed to generate summary"].
Proof.
  split; [|split; [|split; [|split; [|split; [|split; [|split; [|split;
    [|split]]]]]]]].
  - intros d st video_id w url H E A.
    apply (rpc_fetch_stops sv d st _ video_id None H E); [|reflexivity].
    rewrite get_transcript_run, A. reflexivity.
  - intros args url st video_id w U N E A.
    rewrite (cli_fetch_stops sv args url U N st
               {| world := w;
                  log := log st
                         ++ [EvPrint (py "Video ID: " ++ video_id);
                             EvPrint (py "Downloading transcript...");
                             EvTranscript video_id;
                             EvPrint msg_unable_transcript] |}
               video_id None E); [| |reflexivity].
    + unfold add. cbn [world log]. now rewrite <- app_assoc.
    + rewrite get_transcript_run. cbn [add world log]. rewrite A.
      now rewrite <- app_assoc.
  - apply rpc_in_sequence.
  - apply cli_in_sequence.
  - intros d st url H E. now apply rpc_invalid_identifier.
  - intros args url st U N E.
    exact (cli_invalid_identifier sv args url U N st E).
  - intros d st st1 st2 video_id transcript summary url model H E G T S F.
    split.
    + now apply (rpc_generation_stops sv d st st1 st2 video_id transcript
                   summary).
    + destruct (get_transcript_grows sv video_id st) as (t & s1 & G' & G1).
      rewrite G in G'. injection G' as <- <-.
      destruct (generate_summary_grows sv transcript model st1)
        as (s & s2 & S' & S1).
      rewrite S in S'. injection S' as <- <-.
      apply (grows_trans st st1 st2 [Fetch] [Generate] G1 S1).
  - intros args url st st1 st2 video_id transcript summary U N E G T S F.
    split.
    + exact (cli_generation_stops sv args url U N st st1 st2 video_id
               transcript summary E G T S F).
    + destruct (get_transcript_grows sv video_id
                  (add st [EvPrint (py "Video ID: " ++ video_id);
                           EvPrint (py "Downloading transcript...")]))
        as (t & s1 & G' & G1).
      rewrite G in G'. injection G' as <- <-.
      apply grows_after_prints in G1.
      destruct (generate_summary_grows sv transcript
                  (PStr (arg_model args))
                  (add st1 [EvPrint (py "Transcript downloaded successfully");
                            EvPrint (py "Generating summary using "
                                     ++ arg_model args ++ py "...")]))
        as (s & s2 & S' & S1).
      rewrite S in S'. injection S' as <- <-.
      apply grows_after_prints in S1.
      apply (grows_trans st st1 st2 [Fetch] [Generate] G1 S1).
  - repeat constructor; simpl; intuition discriminate.
  - repeat constructor; simpl; intuition discriminate.
Qed.

End StrictSequence.

Lemma pipeline_stops_at_first_failure_witness :
  _youtube_summary scripted (PDict [kv "url" (PStr (py "dQw4w9WgXcQ"))])
    (start {| segments := None; answer := answer fair; links := [];
              writable := true; typed := [] |})
  = (Ok (error_result (py "Failed to download transcript")),
     {| world := {| segments := None; answer := answer fair; links := [];
                    writable := true; typed := [] |};
        log := [EvTranscript (py "dQw4w9WgXcQ");
                EvPrint msg_unable_transcript] |}).
Proof.
  apply (proj1 (pipeline_stops_at_first_failure scripted)
           [kv "url" (PStr (py "dQw4w9WgXcQ"))]
           (start {| segments := None; answer := answer fair; links := [];
                     writable := true; typed := [] |})
           (py "dQw4w9WgXcQ")); reflexivity.
Defined.

Section Tool.

Context {World : Type}.
Variable sv : services World.

(** [call_tool] on a name that can be hashed: the one tool runs under
    the handler, any other name is unknown. *)
Lemma call_tool_run (name arguments : pyval) (st : state World) :
  hashable name = true ->
  call_tool sv name arguments st =
  if eq_str name (py "youtube_summary") then
    match _youtube_summary sv arguments st with
    | (Ok v, st') => (Ok v, st')
    | (Raise e, st') =>
        (Ok (error_result (py "Error calling tool " ++ fmt sv name
                           ++ py ": " ++ e)), st')
    end
  else (Ok (error_result (py "Unknown tool: " ++ fmt sv name)), st).
Proof.
  intros H. unfold call_tool, bind, lift, catch, ret, in_tools, tools.
  destruct name; try discriminate H; cbn [existsb fst kv orb eq_str];
    try reflexivity.
  rewrite orb_false_r. destruct (str_eqb s (py "youtube_summary")); reflexivity.
Qed.

(** The one tool, called by its name. *)
Lemma call_youtube_summary (arguments : pyval) (st : state World) :
  call_tool sv (PStr (py "youtube_summary")) arguments st =
  match _youtube_summary sv arguments st with
  | (Ok v, st') => (Ok v, st')
  | (Raise e, st') =>
      (Ok (error_result (py "Error calling tool youtube_summary: " ++ e)),
       st')
  end.
Proof.
  rewrite call_tool_run by reflexivity. reflexivity.
Qed.

End Tool.

Section SaveOutcome.

Context {World : Type}.
Variable sv : services World.

(** C4, as the code has it.  When resolution, fetch and generation
    succeed and [save_to_file] is true, a save that fails by returning
    [False] leaves the tool's successful result, with the transcript,
    the summary and [saved_to_file = false].  A save that fails by
    raising leaves no such result: the exception leaves
    [_youtube_summary], and [call_tool] answers with an error result
    that carries the message of the exception and neither transcript
    nor summary.  The save raises when the requested name is a truthy
    value that is no string, and when resolving the name or the working
    directory raises. *)
Theorem save_failure_reaches_the_caller
    (d : list (str * pyval)) (st st1 st2 st3 : state World)
    (video_id transcript summary : str) :
  let url := dict_get d "url" PNone in
  let model := dict_get d "model" default_model in
  let output_file := dict_get d "output_file" (PStr (py "transcript.md")) in
  let tool := PStr (py "youtube_summary") in
  truthy url = true ->
  extract_video_id_dyn url = Some video_id ->
  get_transcript sv video_id st = (Ok (Some transcript), st1) ->
  is_empty transcript = false ->
  generate_summary sv transcript model st1 = (Ok (Some summary), st2) ->
  is_empty summary = false ->
  truthy (dict_get d "save_to_file" (PBool false)) = true ->
  (save_to_markdown sv transcript summary output_file url model st2
   = (Ok false, st3) ->
   call_tool sv tool (PDict d) st
   = (Ok (tool_content
            [ kv "video_id" (PStr video_id);
              kv "video_url" url;
              kv "transcript" (PStr transcript);
              kv "summary" (PStr summary);
              kv "model_used" model;
              kv "saved_to_file" (PBool false) ]),
      st3))
  /\ (forall e,
        save_to_markdown sv transcript summary output_file url model st2
        = (Raise e, st3) ->
        _youtube_summary sv (PDict d) st = (Raise e, st3)
        /\ call_tool sv tool (PDict d) st
           = (Ok (error_result
                    (py "Error calling tool youtube_summary: " ++ e)),
              st3))
  /\ (forall e,
        sanitize_filename_dyn output_file = Raise e ->
        save_to_markdown sv transcript summary output_file url model st2
        = (Raise e, st2))
  /\ (forall name e,
        sanitize_filename_dyn output_file = Ok name ->
        path_resolve sv name (world st2) = Raise e ->
        save_to_markdown sv transcript summary output_file url model st2
        = (Raise e, st2))
  /\ (forall name target e,
        sanitize_filename_dyn output_file = Ok name ->
        path_resolve sv name (world st2) = Ok target ->
        path_cwd sv (world st2) = Raise e ->
        save_to_markdown sv transcript summary output_file url model st2
        = (Raise e, st2)).
Proof.
  intros url model output_file tool H E G T S F V.
  split; [|split; [|split; [|split]]].
  - intros W. unfold tool. rewrite call_youtube_summary.
    now rewrite (rpc_with_save sv d st st1 st2 st3 video_id transcript
                   summary (Ok false) H E G T S F V W).
  - intros e W.
    pose proof (rpc_with_save sv d st st1 st2 st3 video_id transcript
                  summary (Raise e) H E G T S F V W) as R.
    cbv beta iota in R. split; [exact R|].
    unfold tool. rewrite call_youtube_summary, R. reflexivity.
  - intros e Hs. unfold save_to_markdown, bind, lift. now rewrite Hs.
  - intros name e Hs Hp. unfold save_to_markdown, bind, lift, ask.
    now rewrite Hs, Hp.
  - intros name target e Hs Hp Hc. unfold save_to_markdown, bind, lift, ask.
    now rewrite Hs, Hp, Hc.
Qed.

(** C10, as the code has it.  After a successful save through the tool
    the field [output_file] of the result is the requested value as it
    came in, while the file written is the resolution of the sanitized
    name; a requested name that is not an absolute path differs from
    the path written.  When the save fails the result has no
    [output_file] field. *)
Theorem output_file_reports_the_request
    (d : list (str * pyval)) (st st1 st2 st3 : state World)
    (video_id transcript summary : str) (saved : bool) :
  let url := dict_get d "url" PNone in
  let model := dict_get d "model" default_model in
  let output_file := dict_get d "output_file" (PStr (py "transcript.md")) in
  truthy url = true ->
  extract_video_id_dyn url = Some video_id ->
  get_transcript sv video_id st = (Ok (Some transcript), st1) ->
  is_empty transcript = false ->
  generate_summary sv transcript model st1 = (Ok (Some summary), st2) ->
  is_empty summary = false ->
  truthy (dict_get d "save_to_file" (PBool false)) = true ->
  save_to_markdown sv transcript summary output_file url model st2
  = (Ok saved, st3) ->
  exists result,
    _youtube_summary sv (PDict d) st = (Ok (tool_content result), st3)
    /\ assoc (py "output_file") result
       = (if saved then Some output_file else None)
    /\ (saved = true ->
        exists name target content line,
          sanitize_filename_dyn output_file = Ok name
          /\ path_resolve sv name (world st2) = Ok target
          /\ log st3 = log st2 ++ [EvWrite target content; EvPrint line]
          /\ forall f, output_file = PStr f ->
               name = sanitize_filename f
               /\ (startswith (py "/") f = false -> f <> path_str target)).
Proof.
  intros url model output_file H E G T S F V W.
  rewrite (rpc_with_save sv d st st1 st2 st3 video_id transcript summary
             (Ok saved) H E G T S F V W).
  destruct saved.
  - eexists. split; [reflexivity|]. split; [reflexivity|]. intros _.
    pose proof (save_to_markdown_run sv transcript summary output_file url
                  model st2) as R.
    rewrite W in R.
    inversion R as [ | | | | n p c w Hs Hp Hc Hw ct Ho Hr | ]; subst.
    exists n, p, ct, (py "Summary and transcript saved to: " ++ path_str p).
    split; [exact Hs|]. split; [exact Hp|]. split; [reflexivity|].
    intros f Ef. split.
    + rewrite Ef in Hs. simpl in Hs. now injection Hs.
    + intros Hf ->. discriminate Hf.
  - eexists. split; [reflexivity|]. split; [reflexivity|]. discriminate.
Qed.

End SaveOutcome.

Lemma save_failure_reaches_the_caller_witness :
  call_tool scripted (PStr (py "youtube_summary"))
    (PDict (save_request "notes.md")) (start read_only)
  = (Ok (tool_content
           [ kv "video_id" (PStr (py "dQw4w9WgXcQ"));
             kv "video_url" (PStr (py "dQw4w9WgXcQ"));
             kv "transcript" (PStr (py "never gonna give you up"));
             kv "summary" (PStr (py "A promise."));
             kv "model_used" default_model;
             kv "saved_to_file" (PBool false) ]),
     {| world := read_only;
        log := generated
               ++ [EvWrite (home ++ [py "notes.md"])
                     (document (py "dQw4w9WgXcQ") (py "A promise.")
                               (py "claude-sonnet-4-20250514")
                               (py "never gonna give you up"));
                   EvPrint (py "Error: Unable to save file. Please check permissions and try again.")] |}).
Proof.
  exact (proj1
           (save_failure_reaches_the_caller scripted
              (save_request "notes.md") (start read_only)
              {| world := read_only; log := fetched |}
              {| world := read_only; log := generated |}
              {| world := read_only;
                 log := generated
                        ++ [EvWrite (home ++ [py "notes.md"])
                              (document (py "dQw4w9WgXcQ") (py "A promise.")
                                        (py "claude-sonnet-4-20250514")
                                        (py "never gonna give you up"));
                            EvPrint (py "Error: Unable to save file. Please check permissions and try again.")] |}
              (py "dQw4w9WgXcQ") (py "never gonna give you up")
              (py "A promise.")
              eq_refl eq_refl eq_refl eq_refl eq_refl eq_refl eq_refl)
           eq_refl).
Defined.

(** Fetch and generation succeed and the save raises: for a requested
    name that is a number, and for a working directory that has been
    removed.  The caller gets an error result, without transcript and
    summary. *)
Lemma save_exception_loses_the_result :
  get_transcript scripted (py "dQw4w9WgXcQ") (start fair)
  = (Ok (Some (py "never gonna give you up")),
     {| world := fair; log := fetched |})
  /\ generate_summary scripted (py "never gonna give you up") default_model
       {| world := fair; log := fetched |}
     = (Ok (Some (py "A promise.")), {| world := fair; log := generated |})
  /\ save_to_markdown scripted (py "never gonna give you up")
       (py "A promise.") (PInt 5) (PStr (py "dQw4w9WgXcQ")) default_model
       {| world := fair; log := generated |}
     = (Raise (py "expected str, bytes or os.PathLike object, not int"),
        {| world := fair; log := generated |})
  /\ call_tool scripted (PStr (py "youtube_summary"))
       (PDict numbered_request) (start fair)
     = (Ok (error_result
              (py "Error calling tool youtube_summary: expected str, bytes or os.PathLike object, not int")),
        {| world := fair; log := generated |})
  /\ call_tool adrift (PStr (py "youtube_summary"))
       (PDict (save_request "notes.md")) (start fair)
     = (Ok (error_result
              (py "Error calling tool youtube_summary: [Errno 2] No such file or directory")),
        {| world := fair; log := generated |}).
Proof.
  repeat split; reflexivity.
Qed.

Lemma output_file_reports_the_request_witness :
  exists result,
    _youtube_summary scripted (PDict (save_request "../notes")) (start fair)
    = (Ok (tool_content result), {| world := fair; log := saved_notes |})
    /\ assoc (py "output_file") result = Some (PStr (py "../notes")).
Proof.
  destruct (output_file_reports_the_request scripted
              (save_request "../notes") (start fair)
              {| world := fair; log := fetched |}
              {| world := fair; log := generated |}
              {| world := fair; log := saved_notes |}
              (py "dQw4w9WgXcQ") (py "never gonna give you up")
              (py "A promise.") true
              eq_refl eq_refl eq_refl eq_refl eq_refl eq_refl eq_refl eq_refl)
    as [result [R [A _]]].
  exists result. split; assumption.
Defined.

(** C10 as stated fails: the request names a file of the working
    directory by its absolute path; sanitization strips the directories,
    and the reported [output_file] is the very path that was written. *)
Lemma output_file_can_equal_the_write_path :
  let f := py "/home/user/notes.md" in
  let run := _youtube_summary scripted (PDict (save_request "/home/user/notes.md"))
                             (start fair) in
  sanitize_filename f = py "notes.md"
  /\ sanitize_filename f <> f
  /\ (exists result,
        fst run = Ok (tool_content result)
        /\ assoc (py "saved_to_file") result = Some (PBool true)
        /\ assoc (py "output_file") result = Some (PStr f))
  /\ map path_str (written (log (snd run))) = [f].
Proof.
  cbv zeta. split; [reflexivity|]. split; [discriminate|].
  split; [|reflexivity].
  eexists. split; [reflexivity|]. split; reflexivity.
Qed.

Section EmptyResults.

Context {World : Type}.
Variable sv : services World.

(** C9.  When the transcript service answers but the flattened
    transcript is empty, as for an empty list of segments, the tool
    and the command line both report the transcript-fetch failure:
    callers test the result for truth, and the empty string is as
    false as [None].  In the same way an empty summary is reported as
    a generation failure. *)
Theorem empty_results_are_failures :
  join (py " ") [] = []
  /\ (forall d st video_id segs w,
         let url := dict_get d "url" PNone in
         truthy url = true ->
         extract_video_id_dyn url = Some video_id ->
         api_get_transcript sv video_id (world st) = (Some segs, w) ->
         join (py " ") segs = [] ->
         _youtube_summary sv (PDict d) st
         = (Ok (error_result (py "Failed to download transcript")),
            {| world := w; log := log st ++ [EvTranscript video_id] |}))
  /\ (forall args url st video_id segs w,
         arg_url args = Some url ->
         is_empty url = false ->
         extract_video_id url = Some video_id ->
         api_get_transcript sv video_id (world st) = (Some segs, w) ->
         join (py " ") segs = [] ->
         cli_main sv args st
         = (Ok 1,
            {| world := w;
               log := log st
                      ++ [EvPrint (py "Video ID: " ++ video_id);
                          EvPrint (py "Downloading transcript...");
                          EvTranscript video_id;
                          EvPrint (py "Failed to download transcript")] |}))
  /\ (forall d st st1 video_id transcript w,
         let url := dict_get d "url" PNone in
         let model := dict_get d "model" default_model in
         let prompt :=
           prompt_head ++ truncate_transcript transcript ++ prompt_tail in
         truthy url = true ->
         extract_video_id_dyn url = Some video_id ->
         get_transcript sv video_id st = (Ok (Some transcript), st1) ->
         is_empty transcript = false ->
         completion sv model prompt 1000 (world st1) = (Some (Some []), w) ->
         _youtube_summary sv (PDict d) st
         = (Ok (error_result (py "Failed to generate summary")),
            {| world := w;
               log := log st1 ++ [EvCompletion model prompt 1000] |}))
  /\ (forall args url st st1 video_id transcript w,
         let model := PStr (arg_model args) in
         let prompt :=
           prompt_head ++ truncate_transcript transcript ++ prompt_tail in
         arg_url args = Some url ->
         is_empty url = false ->
         extract_video_id url = Some video_id ->
         get_transcript sv video_id
           (add st [EvPrint (py "Video ID: " ++ video_id);
                    EvPrint (py "Downloading transcript...")])
         = (Ok (Some transcript), st1) ->
         is_empty transcript = false ->
         completion sv model prompt 1000 (world st1) = (Some (Some []), w) ->
         cli_main sv args st
         = (Ok 1,
            {| world := w;
               log := log st1
                      ++ [EvPrint (py "Transcript downloaded successfully");
                          EvPrint (py "Generating summary using "
                                   ++ arg_model args ++ py "...");
                          EvCompletion model prompt 1000;
                          EvPrint (py "Failed to generate summary")] |})).
Proof.
  split; [reflexivity|]. split; [|split; [|split]].
  - intros d st video_id segs w url H E A J.
    apply (rpc_fetch_stops sv d st _ video_id (Some (join (py " ") segs))
             H E).
    + rewrite get_transcript_run, A. reflexivity.
    + now rewrite J.
  - intros args url st video_id segs w U N E A J.
    rewrite (cli_fetch_stops sv args url U N st
               {| world := w;
                  log := log st
                         ++ [EvPrint (py "Video ID: " ++ video_id);
                             EvPrint (py "Downloading transcript...");
                             EvTranscript video_id] |}
               video_id (Some (join (py " ") segs)) E).
    + unfold add. cbn [world log]. now rewrite <- app_assoc.
    + rewrite get_transcript_run. cbn [add world log]. rewrite A.
      now rewrite <- app_assoc.
    + now rewrite J.
  - intros d st st1 video_id transcript w url model prompt H E G T C.
    apply (rpc_generation_stops sv d st st1 _ video_id transcript (Some [])
             H E G T); [|reflexivity].
    rewrite generate_summary_run. fold model prompt. now rewrite C.
  - intros args url st st1 video_id transcript w model prompt U N E G T C.
    rewrite (cli_generation_stops sv args url U N st st1
               {| world := w;
                  log := log st1
                         ++ [EvPrint (py "Transcript downloaded successfully");
                             EvPrint (py "Generating summary using "
                                      ++ arg_model args ++ py "...");
                             EvCompletion model prompt 1000] |}
               video_id transcript (Some []) E G T).
    + unfold add. cbn [world log]. now rewrite <- app_assoc.
    + rewrite generate_summary_run. fold model prompt.
      cbn [add world log]. rewrite C. now rewrite <- app_assoc.
    + reflexivity.
Qed.

End EmptyResults.

Lemma empty_results_are_failures_witness :
  _youtube_summary scripted (PDict [kv "url" (PStr (py "dQw4w9WgXcQ"))])
                  (start silent)
  = (Ok (error_result (py "Failed to download transcript")),
     {| world := silent; log := [EvTranscript (py "dQw4w9WgXcQ")] |}).
Proof.
  exact (proj1 (proj2 (empty_results_are_failures scripted))
           [kv "url" (PStr (py "dQw4w9WgXcQ"))] (start silent)
           (py "dQw4w9WgXcQ") [] silent eq_refl eq_refl eq_refl eq_refl).
Defined.

Section Server.

Context {World : Type}.
Variable sv : services World.

(** C7, as the code has it.  A line on which [json.loads] raises
    [JSONDecodeError] makes the server print exactly one response, the
    error -32700 with a null id, after which it goes on with the lines
    that follow.  A parsed request object whose method is neither
    [tools/list] nor [tools/call] gets the error -32601 with the id of
    the request.  A line on which [json.loads] raises another exception
    gets exactly one response too, the error -32603 with the message of
    the exception, under the id of the last request that parsed, null
    when none has; the server goes on after it as well. *)
Theorem serve_answers_bad_lines (request : option pyval) (line : str)
    (rest : list str) (st : state World) :
  (json_loads sv (strip line) = DecodeError ->
     mcp_main_loop sv request (line :: rest) st
     = mcp_main_loop sv request rest
         (add st [EvPrintJson
                    (PDict [ kv "jsonrpc" (PStr (py "2.0"));
                             kv "id" PNone;
                             kv "error"
                                (PDict [ kv "code" (PInt (-32700));
                                         kv "message"
                                            (PStr (py "Parse error")) ]) ])]))
  /\ (forall d,
        json_loads sv (strip line) = Parsed (PDict d) ->
        eq_str (dict_get d "method" PNone) (py "tools/list") = false ->
        eq_str (dict_get d "method" PNone) (py "tools/call") = false ->
        mcp_main_loop sv request (line :: rest) st
        = mcp_main_loop sv (Some (PDict d)) rest
            (add st [EvPrintJson
                       (PDict [ kv "jsonrpc" (PStr (py "2.0"));
                                kv "id" (dict_get d "id" PNone);
                                kv "error"
                                   (PDict [ kv "code" (PInt (-32601));
                                            kv "message"
                                               (PStr (py "Method not found")) ]) ])]))
  /\ (forall e,
        json_loads sv (strip line) = OtherError e ->
        mcp_main_loop sv None (line :: rest) st
        = mcp_main_loop sv None rest
            (add st [EvPrintJson
                       (PDict [ kv "jsonrpc" (PStr (py "2.0"));
                                kv "id" PNone;
                                kv "error"
                                   (PDict [ kv "code" (PInt (-32603));
                                            kv "message"
                                               (PStr (py "Internal error: "
                                                      ++ e)) ]) ])])
        /\ forall d,
             mcp_main_loop sv (Some (PDict d)) (line :: rest) st
             = mcp_main_loop sv (Some (PDict d)) rest
                 (add st [EvPrintJson
                            (PDict [ kv "jsonrpc" (PStr (py "2.0"));
                                     kv "id" (dict_get d "id" PNone);
                                     kv "error"
                                        (PDict [ kv "code" (PInt (-32603));
                                                 kv "message"
                                                    (PStr (py "Internal error: "
                                                           ++ e)) ]) ])])).
Proof.
  split; [|split].
  - intros P. cbn [mcp_main_loop]. unfold bind at 1, mcp_main_line.
    rewrite P. reflexivity.
  - intros d P L C. cbn [mcp_main_loop]. unfold bind at 1, mcp_main_line.
    rewrite P.
    unfold catch, handle_request, bind, lift, py_get.
    fold (dict_get d "method" PNone). rewrite L, C. reflexivity.
  - intros e P. split; [|intros d]; cbn [mcp_main_loop];
      unfold bind at 1, mcp_main_line; rewrite P; reflexivity.
Qed.

(** A line that parses to something other than an object ends the loop:
    asking it for its method raises, and the last handler raises again
    when it asks for the id. *)
Lemma serve_ends_on_non_object (bound : option pyval) (line : str)
    (rest : list str) (st : state World) (request : pyval) :
  json_loads sv (strip line) = Parsed request ->
  (forall d, request <> PDict d) ->
  mcp_main_loop sv bound (line :: rest) st
  = (Raise (py "'" ++ type_name request
            ++ py "' object has no attribute 'get'"), st).
Proof.
  intros P N. cbn [mcp_main_loop]. unfold bind at 1, mcp_main_line.
  rewrite P. destruct request; try reflexivity. now destruct (N d).
Qed.

End Server.

Lemma serve_answers_bad_lines_witness :
  mcp_main scripted [py "oops"; py "{}"] (start fair)
  = (Ok tt,
     {| world := fair;
        log := [ EvPrintJson (rpc_error PNone (-32700) (py "Parse error"));
                 EvPrintJson (rpc_error PNone (-32601)
                                        (py "Method not found")) ] |}).
Proof.
  refine (eq_trans
            (proj1 (serve_answers_bad_lines scripted None (py "oops")
                      [py "{}"] (start fair)) eq_refl)
            (eq_trans
               (proj1 (proj2 (serve_answers_bad_lines scripted None (py "{}")
                                []
                                (add (start fair)
                                   [EvPrintJson
                                      (rpc_error PNone (-32700)
                                                 (py "Parse error"))])))
                  [] eq_refl eq_refl eq_refl)
               _)).
  reflexivity.
Defined.

(** A line that is no JSON and yet is not answered with -32700: on a
    thousand opening brackets [json.loads] raises a [RecursionError],
    and the answer is -32603, with a null id as the first line and with
    the id of the request before it otherwise. *)
Lemma serve_answers_deep_line_with_internal_error :
  json_loads scripted (strip deep_line) = OtherError recursion_message
  /\ mcp_main scripted [deep_line] (start fair)
     = (Ok tt,
        {| world := fair;
           log := [ EvPrintJson
                      (rpc_error PNone (-32603)
                         (py "Internal error: " ++ recursion_message)) ] |})
  /\ mcp_main scripted [id_line; deep_line] (start fair)
     = (Ok tt,
        {| world := fair;
           log := [ EvPrintJson (rpc_error (PInt 7) (-32601)
                                           (py "Method not found"));
                    EvPrintJson
                      (rpc_error (PInt 7) (-32603)
                         (py "Internal error: " ++ recursion_message)) ] |}).
Proof.
  repeat split; vm_compute; reflexivity.
Qed.
